(** * AlasKA: decoding and scoring of mnemonic predictions

    A shallow embedding of [alaska/predict_from_model.py]
    ([decode_batch_output], [eval_bs_batch], [eval_bs]) and the properties
    its specification states about it.

    Conventions of the embedding.
    - A Python call that can raise returns a [result]; the exception is a
      constructor of [exn].
    - Calls into the trained model and the file system are logged in a
      trace of [event]s that is threaded through the computation ([M]).
    - A local variable that some paths never assign is an [option]: [None]
      is "not bound", and reading it raises [UnboundLocalError].
    - Token indices are positions in a vocabulary, hence [nat].
    - A Python [float] is an IEEE 754 binary64 number.  Where the module
      does arithmetic on one itself (line 130) it is a [spec_float], with
      the operations of the standard, rounding included.  Where it hands
      one to [math.log] (line 105) the result is the C library's: the
      argument, a finite double, is the rational it denotes, and the
      result is the real that the returned double denotes, given by a
      parameter [libm_log] of the embedding. *)

From Stdlib Require Import ZArith QArith Qround Qreals Reals Lra Lia.
From Stdlib Require Import String Ascii List SpecFloat.
From stdpp Require Import gmap strings list fin_maps.

Open Scope Z_scope.

(** ** Python exceptions and fallible computations *)

Inductive exn : Type :=
| AssertionError
| IndexError
| ValueError            (* "math domain error", "cannot convert float NaN" *)
| OverflowError
| ZeroDivisionError
| UnboundLocalError (name : string)
| StopIteration.

Inductive result (A : Type) : Type :=
| Ok (a : A)
| Raise (e : exn).
Arguments Ok {A} a.
Arguments Raise {A} e.

Definition rbind {A B} (r : result A) (k : A -> result B) : result B :=
  match r with
  | Ok a => k a
  | Raise e => Raise e
  end.

Notation "'try' x <- r ; k" := (rbind r (fun x => k))
  (at level 10, x pattern, r at level 100, k at level 200).

(** [assert cond] *)
Definition py_assert (cond : bool) : result unit :=
  if cond then Ok tt else Raise AssertionError.

(** [l[i]] on a Python list: a negative index counts from the end, an
    index outside [-len(l) .. len(l)-1] raises [IndexError]. *)
Definition py_getitem {A} (l : list A) (i : Z) : result A :=
  let n := Z.of_nat (length l) in
  let j := if i <? 0 then n + i else i in
  if (0 <=? j) && (j <? n)
  then match nth_error l (Z.to_nat j) with
       | Some a => Ok a
       | None => Raise IndexError
       end
  else Raise IndexError.

(** Reading a local variable: a name that was never assigned raises. *)
Definition read_local {A} (name : string) (v : option A) : result A :=
  match v with
  | Some a => Ok a
  | None => Raise (UnboundLocalError name)
  end.

(** [range(a, b)] *)
Definition py_range (a b : Z) : list Z :=
  map (fun i => a + Z.of_nat i) (seq 0 (Z.to_nat (b - a))).

(** Truth value of an optional string ([None] and [""] are false). *)
Definition truthy_str (s : string) : bool :=
  match s with
  | EmptyString => false
  | String _ _ => true
  end.

Definition truthy (o : option string) : bool :=
  match o with
  | None => false
  | Some s => truthy_str s
  end.

(** ** Numbers *)

(** A Python number as [eval_bs] meets it: an [int], or a [float], which
    is an IEEE 754 binary64 number ([spec_float] read at precision 53 and
    maximal exponent 1024). *)
Inductive number : Type :=
| PyInt (n : Z)
| PyFloat (x : spec_float).

(** The conversion arithmetic applies to an [int] operand next to a
    [float] one: the nearest double, ties to even, and [OverflowError]
    when the [int] is too large for a double. *)
Definition float_of_int (n : Z) : result spec_float :=
  match binary_normalize 53 1024 n 0 false with
  | S754_zero s => Ok (S754_zero s)
  | S754_finite s m e => Ok (S754_finite s m e)
  | S754_infinity _ | S754_nan => Raise OverflowError
  end.

(** [x * n] for a number [x] and an [int] [n]: exact on two [int]s, the
    IEEE product of [x] and [float(n)] otherwise. *)
Definition py_mul_int (x : number) (n : Z) : result number :=
  match x with
  | PyInt k => Ok (PyInt (k * n))
  | PyFloat x =>
      try y <- float_of_int n;
      Ok (PyFloat (SFmul 53 1024 x y))
  end.

(** [int(x)]: an [int] is returned as it is, a [float] is truncated
    towards zero; an infinity raises [OverflowError], a NaN [ValueError]. *)
Definition py_int (x : number) : result Z :=
  match x with
  | PyInt n => Ok n
  | PyFloat (S754_zero _) => Ok 0
  | PyFloat (S754_finite s m e) =>
      let a := Z.shiftl (Z.pos m) e in
      Ok (if s then - a else a)
  | PyFloat (S754_infinity _) => Raise OverflowError
  | PyFloat S754_nan => Raise ValueError
  end.

(** The rational a double denotes (0 for what is not a finite number). *)
Definition double_value (x : spec_float) : Q :=
  match x with
  | S754_finite s m e =>
      let v := if 0 <=? e then inject_Z (Z.pos m * 2 ^ e)
               else Z.pos m # Pos.pow 2 (Z.to_pos (- e)) in
      if s then (- v)%Q else v
  | _ => 0%Q
  end.

(** ** [str.split()] *)

(** The ASCII characters for which [str.isspace] holds. *)
Definition is_space (c : ascii) : bool :=
  let n := nat_of_ascii c in
  (((9 <=? n) && (n <=? 13)) || ((28 <=? n) && (n <=? 32)))%nat.

(** [s.split()]: the maximal runs of non-space characters, in order. *)
Fixpoint py_split (s : string) : list string :=
  match s with
  | EmptyString => []
  | String c s' =>
      if is_space c then py_split s'
      else match s' with
           | EmptyString => [String c EmptyString]
           | String c' _ =>
               if is_space c' then String c EmptyString :: py_split s'
               else match py_split s' with
                    | w :: ws => String c w :: ws
                    | [] => [String c EmptyString]
                    end
           end
  end.

(** No character of [w] is a space. *)
Fixpoint no_space (w : string) : bool :=
  match w with
  | EmptyString => true
  | String c w' => negb (is_space c) && no_space w'
  end.

(** ** Vocabulary, OOV dictionary, tensors *)

(** Modelled from the spec: [Vocab] of [alaska/utils.py], "an ordered,
    index-addressable set of base tokens" with "a reserved end-of-sequence
    index constant".  [vocab[i]] is list indexing, [len(vocab)] the number
    of base tokens. *)
Record Vocab : Type := {
  index2word : list string;
  EOS : nat
}.

Definition vocab_len (vocab : Vocab) : nat := length (index2word vocab).

Definition vocab_getitem (vocab : Vocab) (word_idx : nat) : result string :=
  match index2word vocab !! word_idx with
  | Some w => Ok w
  | None => Raise IndexError
  end.

(** Modelled from the spec: [OOVDict] of [alaska/utils.py], "a mapping from
    (example-index-within-batch, extended-vocabulary-index) to the original
    surface word". *)
Record OOVDict : Type := {
  oov_index2word : gmap (nat * nat) string
}.

(** [d.get(key, default)] *)
Definition dict_get {K} `{Countable K} {V} (d : gmap K V) (key : K)
    (default : V) : V :=
  match d !! key with
  | Some v => v
  | None => default
  end.

(** A two-dimensional integer tensor. *)
Record Tensor : Type := {
  dim0 : nat;
  dim1 : nat;
  item : nat -> nat -> nat
}.

(** [t.transpose(0, 1).tolist()] *)
Definition transpose_tolist (t : Tensor) : list (list nat) :=
  map (fun b => map (fun s => item t s b) (seq 0 (dim0 t))) (seq 0 (dim1 t)).

(** The argument of [decode_batch_output]: a list of index lists, or a
    tensor. *)
Inductive DecodedTokens : Type :=
| PyList (docs : list (list nat))
| PyTensor (t : Tensor).

(** ** [decode_batch_output] *)

(** Lines 51-54: the string of one index of example [i]. *)
Definition resolve_word (vocab : Vocab) (oov_dict : OOVDict)
    (i word_idx : nat) : result string :=
  if (vocab_len vocab <=? word_idx)%nat
  then Ok (dict_get (oov_index2word oov_dict) (i, word_idx) "<UNK>"%string)
  else vocab_getitem vocab word_idx.

(** Lines 50-57: the inner loop, with [decoded_doc] as accumulator; it
    stops after appending the word of the end-of-sequence index. *)
Fixpoint decode_doc_loop (vocab : Vocab) (oov_dict : OOVDict) (i : nat)
    (doc : list nat) (decoded_doc : list string) : result (list string) :=
  match doc with
  | [] => Ok decoded_doc
  | word_idx :: rest =>
      try word <- resolve_word vocab oov_dict i word_idx;
      let decoded_doc := decoded_doc ++ [word] in
      if (word_idx =? EOS vocab)%nat then Ok decoded_doc
      else decode_doc_loop vocab oov_dict i rest decoded_doc
  end.

(** Lines 48-58: the outer loop over [enumerate(decoded_tokens)]. *)
Fixpoint decode_batch_loop (vocab : Vocab) (oov_dict : OOVDict) (i : nat)
    (docs : list (list nat)) (decoded_batch : list (list string))
    : result (list (list string)) :=
  match docs with
  | [] => Ok decoded_batch
  | doc :: rest =>
      try decoded_doc <- decode_doc_loop vocab oov_dict i doc [];
      decode_batch_loop vocab oov_dict (S i) rest (decoded_batch ++ [decoded_doc])
  end.

(** Lines 46-47. *)
Definition as_docs (decoded_tokens : DecodedTokens) : list (list nat) :=
  match decoded_tokens with
  | PyList docs => docs
  | PyTensor t => transpose_tolist t
  end.

Definition decode_batch_output (decoded_tokens : DecodedTokens)
    (vocab : Vocab) (oov_dict : OOVDict) : result (list (list string)) :=
  decode_batch_loop vocab oov_dict 0 (as_docs decoded_tokens) [].

(** ** The model, batches and the effects of a prediction *)

(** Modelled from the spec: a beam-search hypothesis ([Hypothesis] of
    [alaska/model.py]; the name is reserved here), of which the evaluator reads the token indices and
    "the length-normalized cumulative log-probability". *)
Record BeamHypothesis : Type := {
  tokens : list nat;
  avg_log_prob : Q
}.

(** An example of a batch ([Example] of [alaska/utils.py]). *)
Record DataExample : Type := {
  src : list string;
  tgt : list string
}.

Record Batch : Type := {
  examples : list DataExample;
  input_tensor : Tensor;
  input_lengths : list nat;
  ext_vocab_size : nat;
  oov_dict : OOVDict
}.

(** The trained model is an external collaborator: its [beam_search] is a
    field, a function of the arguments it is called with. *)
Record Seq2Seq : Type := {
  beam_search :
    Tensor -> option (list nat) -> nat -> nat -> nat -> option nat -> bool ->
    list BeamHypothesis
}.

(** An open archive, as returned by [tarfile.open]. *)
Record TarFile : Type := {
  tar_name : string;
  tar_mode : string
}.

(** What a run does to the outside: calls into the model and the opening
    of the results archive, in the order they happen. *)
Inductive event : Type :=
| EvModelEval
| EvBeamSearch (input : Tensor) (lengths : option (list nat))
    (ext_vocab_size beam_size min_out_len : nat) (max_out_len : option nat)
    (len_in_words : bool)
| EvTarOpen (f : TarFile).

Definition is_beam_search (e : event) : bool :=
  match e with
  | EvBeamSearch _ _ _ _ _ _ _ => true
  | _ => false
  end.

(** Number of times the model was asked to decode. *)
Definition beam_search_calls (tr : list event) : nat :=
  length (filter (fun e => is_beam_search e = true) tr).

(** A computation that may raise and that extends the trace. *)
Definition M (A : Type) : Type := list event -> result A * list event.

Definition ret {A} (a : A) : M A := fun tr => (Ok a, tr).

Definition bind {A B} (c : M A) (k : A -> M B) : M B :=
  fun tr =>
    match c tr with
    | (Ok a, tr') => k a tr'
    | (Raise e, tr') => (Raise e, tr')
    end.

Definition lift {A} (r : result A) : M A := fun tr => (r, tr).

Definition emit (e : event) : M unit := fun tr => (Ok tt, tr ++ [e]).

Notation "'run' x <- c ; k" := (bind c (fun x => k))
  (at level 10, x pattern, c at level 100, k at level 200).

(** [model.beam_search(...)] *)
Definition call_beam_search (model : Seq2Seq) (input : Tensor)
    (lengths : option (list nat)) (ext_vocab_size beam_size min_out_len : nat)
    (max_out_len : option nat) (len_in_words : bool) : M (list BeamHypothesis) :=
  run _ <- emit (EvBeamSearch input lengths ext_vocab_size beam_size
                   min_out_len max_out_len len_in_words);
  ret (beam_search model input lengths ext_vocab_size beam_size
         min_out_len max_out_len len_in_words).

(** [model.eval()] *)
Definition model_eval (model : Seq2Seq) : M unit := emit EvModelEval.

(** [tarfile.open(name, mode)] *)
Definition tarfile_open (name mode : string) : M TarFile :=
  let f := {| tar_name := name; tar_mode := mode |} in
  run _ <- emit (EvTarOpen f);
  ret f.

(** [next(gen)] on a generator, as the sequence of values it has yet to
    yield. *)
Definition py_next {A} (gen : list A) : result (A * list A) :=
  match gen with
  | a :: gen' => Ok (a, gen')
  | [] => Raise StopIteration
  end.

Section Evaluator.

(** The logarithm of the C library as [math.log] uses it: for a positive
    finite double [x] and an integer [base] of at least 2,
    [math.log(x, base)] is the double quotient [log(x) / log(base)] of two
    doubles the library computes.  Which doubles these are is the
    platform's affair; [libm_log x base] is the real number the quotient
    denotes. *)
Variable libm_log : Q -> Z -> R.

(** [math.log(x, base)] with a float [x] and an integer [base]: a
    non-positive argument or base is a "math domain error", base 1 a
    division by [log(1) = 0.0]. *)
Definition math_log (x : Q) (base : Z) : result R :=
  if Qle_bool x 0 then Raise ValueError
  else if base <=? 0 then Raise ValueError
  else if base =? 1 then Raise ZeroDivisionError
  else Ok (libm_log x base).

(** [format_tokens] of [alaska/utils.py] joins token strings into one
    display string; its spacing rules are external to this module. *)
Variable format_tokens : list string -> string.

(** [get_data_path] of [alaska/get_data_path.py]. *)
Variable get_data_path : string -> string.

(** ** [eval_bs_batch] *)

(** Lines 103-107: what to decode, and the score if [best_only]; the score
    is [None] when the branch taken leaves [probability] unassigned. *)
Definition select_hypotheses (best_only : bool) (hypotheses : list BeamHypothesis)
    : result (list (list nat) * option R) :=
  if best_only then
    try h <- py_getitem hypotheses 0;
    let to_decode := [tokens h] in
    try h' <- py_getitem hypotheses 0;
    try probability <- math_log (- avg_log_prob h') 10;
    Ok (to_decode, Some probability)
  else
    Ok (map tokens hypotheses, None).

(** Lines 109-114. *)
Definition predicted_label (details : bool) (decoded_batch : list (list string))
    : result (option string) :=
  if details then
    try decoded_doc <- py_getitem decoded_batch 0;
    let predict_lst := py_split (format_tokens decoded_doc) in
    try w0 <- py_getitem predict_lst 0;
    try w1 <- py_getitem predict_lst 1;
    Ok (Some (w0 +:+ " " +:+ w1))
  else
    Ok None.

(** Lines 115-116: [mnem] is assigned only if [details]. *)
Definition mnemonic (details : bool) (batch : Batch) : result (option string) :=
  if details then
    try example <- py_getitem (examples batch) 0;
    try mnem <- py_getitem (py_split (format_tokens (src example))) (-1);
    Ok (Some mnem)
  else
    Ok None.

(** Lines 91-117.  [torch.no_grad()] and [.to(DEVICE)] do not change the
    values computed; the keyword arguments are passed explicitly. *)
Definition eval_bs_batch (batch : Batch) (model : Seq2Seq) (vocab : Vocab)
    (pack_seq : bool) (beam_size min_out_len : nat) (max_out_len : option nat)
    (len_in_words best_only details : bool) : M (option string * string * R) :=
  run _ <- lift (py_assert (length (examples batch) =? 1)%nat);
  run hypotheses <-
    call_beam_search model (input_tensor batch)
      (if pack_seq then Some (input_lengths batch) else None)
      (ext_vocab_size batch) beam_size min_out_len max_out_len len_in_words;
  run (to_decode, probability) <- lift (select_hypotheses best_only hypotheses);
  run decoded_batch <-
    lift (decode_batch_output (PyList to_decode) vocab (oov_dict batch));
  run predicted <- lift (predicted_label details decoded_batch);
  run mnem <- lift (mnemonic details batch);
  run mnem <- lift (read_local "mnem" mnem);
  run probability <- lift (read_local "probability" probability);
  ret (predicted, mnem, probability).

(** ** [eval_bs] *)

(** Modelled from the spec: [Dataset] of [alaska/utils.py], "exposing
    pairs (examples)" and "a per-example generator yielding Batch objects
    given (batch_size, vocab, collate_fn, use_pointer)"; the generator is
    the sequence of batches it yields. *)
Record Dataset : Type := {
  pairs : list DataExample;
  generator : nat -> Vocab -> option Vocab -> bool -> list Batch
}.

(** The options of [alaska/params.py] that [eval_bs] reads. *)
Record Params : Type := {
  pointer : bool;
  test_sample_ratio : number;
  test_save_results : bool;
  model_path_prefix : option string;
  pack_seq : bool;
  beam_size : nat;
  min_out_len : nat;
  max_out_len : option nat;
  out_len_in_words : bool
}.

(** Line 130: the product, then [int] of it. *)
Definition n_samples (test_set : Dataset) (params : Params) : result Z :=
  try x <- py_mul_int (test_sample_ratio params)
             (Z.of_nat (length (pairs test_set)));
  py_int x.

(** Lines 132-133: [result_file] is assigned only under the guard. *)
Definition open_result_file (params : Params) (save_path : string)
    : M (option TarFile) :=
  if test_save_results params && truthy (model_path_prefix params)
  then run f <- tarfile_open save_path "w:gz"; ret (Some f)
  else ret None.

(** [x is not None] for an archive object. *)
Definition is_not_None (f : TarFile) : bool := true.

(** Lines 149-151. *)
Definition record_prediction (predicted : option string) (mnem : string)
    (prob : R) (outs : gmap string string * gmap string R)
    : gmap string string * gmap string R :=
  match predicted with
  | Some label =>
      if truthy predicted
      then (<[mnem := label]> (fst outs), <[mnem := prob]> (snd outs))
      else outs
  | None => outs
  end.

(** Lines 136-151: the loop over [range(1, n_samples + 1)].  The arguments
    of the call are evaluated before it is made, [result_file] last;
    [best_only] is not passed and keeps its default, [True]. *)
Fixpoint eval_bs_loop (iters : list Z) (test_gen : list Batch)
    (result_file : option TarFile) (model : Seq2Seq) (vocab : Vocab)
    (params : Params) (outs : gmap string string * gmap string R)
    : M (gmap string string * gmap string R) :=
  match iters with
  | [] => ret outs
  | _ :: iters' =>
      run (batch, test_gen) <- lift (py_next test_gen);
      run f <- lift (read_local "result_file" result_file);
      run (predicted, mnem, prob) <-
        eval_bs_batch batch model vocab (pack_seq params) (beam_size params)
          (min_out_len params) (max_out_len params) (out_len_in_words params)
          true (is_not_None f);
      eval_bs_loop iters' test_gen result_file model vocab params
        (record_prediction predicted mnem prob outs)
  end.

Definition eval_bs (test_set : Dataset) (vocab : Vocab) (model : Seq2Seq)
    (params : Params) : M (gmap string string * gmap string R) :=
  let test_gen :=
    generator test_set 1%nat vocab None
      (if pointer params then true else false) in
  run n_samples <- lift (n_samples test_set params);
  let save_path := get_data_path "results.tgz" in
  run result_file <- open_result_file params save_path;
  let outs : gmap string string * gmap string R := (∅, ∅) in
  run _ <- model_eval model;
  eval_bs_loop (py_range 1 (n_samples + 1)) test_gen result_file model vocab
    params outs.

End Evaluator.

(** ** Auxiliary readings of the decoder, used to state and prove its
    properties *)

(** The part of [doc] that the inner loop visits: up to and including the
    first occurrence of [eos]. *)
Fixpoint upto_eos (eos : nat) (doc : list nat) : list nat :=
  match doc with
  | [] => []
  | word_idx :: rest =>
      word_idx :: (if (word_idx =? eos)%nat then [] else upto_eos eos rest)
  end.

(** The word of [resolve_word] when it returns. *)
Definition resolved (vocab : Vocab) (oov_dict : OOVDict) (i word_idx : nat)
    : string :=
  match resolve_word vocab oov_dict i word_idx with
  | Ok word => word
  | Raise _ => EmptyString
  end.

(** [decoded_doc] is [doc], cut after position [k] when [k] is the first
    position of the end-of-sequence index and whole when there is none,
    with every index converted by lines 51-54. *)
Definition truncated_at_EOS (vocab : Vocab) (oov_dict : OOVDict) (i : nat)
    (doc : list nat) (decoded_doc : list string) : Prop :=
  (forall k : nat,
      doc !! k = Some (EOS vocab) ->
      (forall j : nat, (j < k)%nat -> doc !! j <> Some (EOS vocab)) ->
      Forall2 (fun w s => resolve_word vocab oov_dict i w = Ok s)
        (take (S k) doc) decoded_doc) /\
  ((forall k : nat, doc !! k <> Some (EOS vocab)) ->
      Forall2 (fun w s => resolve_word vocab oov_dict i w = Ok s)
        doc decoded_doc).

(** The three cases of the resolver's contract: the base token below
    [len(vocab)], else the OOV entry of [(i, word_idx)], else ["<UNK>"]. *)
Definition base_or_oov_or_unk (vocab : Vocab) (oov_dict : OOVDict)
    (i word_idx : nat) (word : string) : Prop :=
  ((word_idx < vocab_len vocab)%nat /\
   index2word vocab !! word_idx = Some word) \/
  ((vocab_len vocab <= word_idx)%nat /\
   oov_index2word oov_dict !! (i, word_idx) = Some word) \/
  ((vocab_len vocab <= word_idx)%nat /\
   oov_index2word oov_dict !! (i, word_idx) = None /\
   word = "<UNK>"%string).

(** Base-10 logarithm of a positive real. *)
Definition log10 (x : R) : R := (ln x / ln 10)%R.

(** What is assumed of the platform where a property needs the value of a
    score: [math.log(x, 10)] is the base-10 logarithm of [x] up to a
    relative error of [2^-50].  A C library whose [log] is within one unit
    in the last place meets it: each of the two logarithms is then off by
    at most [2^-52] of its value, and the quotient is rounded once. *)
Definition accurate (libm_log : Q -> Z -> R) : Prop :=
  forall x : Q,
    (0 < x)%Q ->
    (Rabs (libm_log x 10%Z - log10 (Q2R x))
     <= Rabs (log10 (Q2R x)) / 2 ^ 50)%R.

(** Lines 103-117 of [eval_bs_batch], once [beam_search] has returned
    [hypotheses]: the steps that touch neither the model nor the trace. *)
Definition after_beam_search (libm_log : Q -> Z -> R)
    (format_tokens : list string -> string)
    (batch : Batch) (vocab : Vocab) (best_only details : bool)
    (hypotheses : list BeamHypothesis) : result (option string * string * R) :=
  try (to_decode, probability) <-
    select_hypotheses libm_log best_only hypotheses;
  try decoded_batch <-
    decode_batch_output (PyList to_decode) vocab (oov_dict batch);
  try predicted <- predicted_label format_tokens details decoded_batch;
  try mnem <- mnemonic format_tokens details batch;
  try mnem <- read_local "mnem" mnem;
  try probability <- read_local "probability" probability;
  Ok (predicted, mnem, probability).

(** The event of the one decoding call [eval_bs_batch] makes. *)
Definition beam_search_event (batch : Batch) (pack_seq : bool)
    (beam_size min_out_len : nat) (max_out_len : option nat)
    (len_in_words : bool) : event :=
  EvBeamSearch (input_tensor batch)
    (if pack_seq then Some (input_lengths batch) else None)
    (ext_vocab_size batch) beam_size min_out_len max_out_len len_in_words.

(** The hypotheses that call returns. *)
Definition hypotheses_of (model : Seq2Seq) (batch : Batch) (pack_seq : bool)
    (beam_size min_out_len : nat) (max_out_len : option nat)
    (len_in_words : bool) : list BeamHypothesis :=
  beam_search model (input_tensor batch)
    (if pack_seq then Some (input_lengths batch) else None)
    (ext_vocab_size batch) beam_size min_out_len max_out_len len_in_words.

(** Lines 149-151 over the results of the examples processed so far, in
    processing order. *)
Definition record_all (rs : list (option string * string * R))
    (outs : gmap string string * gmap string R)
    : gmap string string * gmap string R :=
  fold_left (fun o r => record_prediction (fst (fst r)) (snd (fst r)) (snd r) o)
    rs outs.

(** [eval_bs] got the result [r] for [batch]: the call it makes for a batch
    returns [r], whatever the trace so far, after one decoding call. *)
Definition processed (libm_log : Q -> Z -> R)
    (format_tokens : list string -> string)
    (model : Seq2Seq) (vocab : Vocab) (params : Params)
    (batch : Batch) (r : option string * string * R) : Prop :=
  forall tr : list event,
    eval_bs_batch libm_log format_tokens batch model vocab (pack_seq params)
      (beam_size params) (min_out_len params) (max_out_len params)
      (out_len_in_words params) true true tr =
    (Ok r,
     tr ++ [beam_search_event batch (pack_seq params) (beam_size params)
              (min_out_len params) (max_out_len params)
              (out_len_in_words params)]).


(** The decoding calls [eval_bs] makes for the batches [bs], in order. *)
Definition batch_events (params : Params) (bs : list Batch) : list event :=
  map (fun batch =>
         beam_search_event batch (pack_seq params) (beam_size params)
           (min_out_len params) (max_out_len params)
           (out_len_in_words params))
      bs.

(** What [eval_bs] does before its loop (lines 131-135): it opens the
    archive under the guard, then puts the model in inference mode. *)
Definition setup_events (get_data_path : string -> string) (params : Params)
    : list event :=
  (if test_save_results params && truthy (model_path_prefix params)
   then [EvTarOpen {| tar_name := get_data_path "results.tgz";
                      tar_mode := "w:gz" |}]
   else []) ++ [EvModelEval].

(** The call [eval_bs] makes for [batch] raises [e], whatever the trace. *)
Definition fails (libm_log : Q -> Z -> R)
    (format_tokens : list string -> string)
    (model : Seq2Seq) (vocab : Vocab) (params : Params)
    (batch : Batch) (e : exn) : Prop :=
  forall tr : list event,
    fst (eval_bs_batch libm_log format_tokens batch model vocab
           (pack_seq params) (beam_size params) (min_out_len params)
           (max_out_len params) (out_len_in_words params) true true tr)
    = Raise e.

(** ** A worked scenario

    One example whose source is [DEPTH FT], a seven-word vocabulary, and
    stand-ins for the collaborators: [join_tokens] for [format_tokens]
    (the tokens separated by one space), models whose beam search returns
    a fixed list of hypotheses, and [cpython_log] for the C library. *)

Definition join_tokens (toks : list string) : string :=
  String.concat " " toks.

(** The double [0.01], that is [0x1.47ae147ae147bp-7]. *)
Definition double_0_01 : Q := 5764607523034235 # 576460752303423488.

(** The doubles a C library returns for [log(0.01)] and [log(10.0)]:
    [-4.605170185988091], that is [-0x1.26bb1bbb55515p+2], and
    [2.302585092994046], that is [0x1.26bb1bbb55516p+1]. *)
Definition log_of_0_01 : spec_float := S754_finite true 5184960683398421 (-50).
Definition log_of_10 : spec_float := S754_finite false 5184960683398422 (-51).

(** A stand-in for the C library: [math.log(0.01, 10)] is the IEEE
    quotient of the two doubles above, as CPython computes it; any other
    logarithm is taken exact. *)
Definition cpython_log (x : Q) (base : Z) : R :=
  if Qeq_bool x double_0_01 && (base =? 10)
  then Q2R (double_value (SFdiv 53 1024 log_of_0_01 log_of_10))
  else (ln (Q2R x) / ln (IZR base))%R.

(** The doubles [1.0], [0.0], [0.7], [0.29] and [1/3]. *)
Definition double_1 : spec_float := S754_finite false 4503599627370496 (-52).
Definition double_0 : spec_float := S754_zero false.
Definition double_0_7 : spec_float := S754_finite false 6305039478318694 (-53).
Definition double_0_29 : spec_float := S754_finite false 5224175567749775 (-54).
Definition double_third : spec_float := S754_finite false 6004799503160661 (-54).

Definition data_path (name : string) : string := ("data/" +:+ name)%string.

Definition demo_vocab : Vocab :=
  {| index2word :=
       ["<PAD>"; "<SOS>"; "<EOS>"; "<UNK>"; "GAMMA"; "RAY"; "DEPTH"]%string;
     EOS := 2 |}.

Definition demo_tensor : Tensor :=
  {| dim0 := 2; dim1 := 1; item := fun s _ => (6 + s)%nat |}.

Definition demo_example : DataExample :=
  {| src := ["DEPTH"; "FT"]%string; tgt := ["DEPTH"; "FEET"]%string |}.

Definition demo_batch : Batch :=
  {| examples := [demo_example];
     input_tensor := demo_tensor;
     input_lengths := [2%nat];
     ext_vocab_size := 8;
     oov_dict := {| oov_index2word := {[ (0%nat, 7%nat) := "FT"%string ]} |} |}.

Definition model_returning (hyps : list BeamHypothesis) : Seq2Seq :=
  {| beam_search := fun _ _ _ _ _ _ _ => hyps |}.

(** Decodes to [GAMMA RAY <EOS>] with average log-probability -0.01. *)
Definition gamma_ray : BeamHypothesis :=
  {| tokens := [4; 5; 2]%nat; avg_log_prob := - double_0_01 |}.

(** Decodes to the single word [GAMMA]. *)
Definition gamma_only : BeamHypothesis :=
  {| tokens := [4%nat]; avg_log_prob := - double_0_01 |}.

(** Decodes to [GAMMA RAY <EOS>] with average log-probability 0. *)
Definition certain_gamma_ray : BeamHypothesis :=
  {| tokens := [4; 5; 2]%nat; avg_log_prob := 0 |}.

(** A second example with the same mnemonic, [RAY FT]. *)
Definition demo_example2 : DataExample :=
  {| src := ["RAY"; "FT"]%string; tgt := ["RAY"; "FEET"]%string |}.

Definition demo_batch2 : Batch :=
  {| examples := [demo_example2];
     input_tensor := {| dim0 := 2; dim1 := 1; item := fun s _ => (5 + 2 * s)%nat |};
     input_lengths := [2%nat];
     ext_vocab_size := 8;
     oov_dict := {| oov_index2word := {[ (0%nat, 7%nat) := "FT"%string ]} |} |}.

(** Decodes to [DEPTH GAMMA <EOS>] with average log-probability -0.5. *)
Definition depth_gamma : BeamHypothesis :=
  {| tokens := [6; 4; 2]%nat; avg_log_prob := - (1 # 2) |}.

(** A model that answers [gamma_ray] for a source starting with [DEPTH] and
    [depth_gamma] for any other. *)
Definition demo_model : Seq2Seq :=
  {| beam_search := fun input _ _ _ _ _ _ =>
       if (item input 0 0 =? 6)%nat then [gamma_ray] else [depth_gamma] |}.

Definition demo_dataset : Dataset :=
  {| pairs := [demo_example; demo_example2];
     generator := fun _ _ _ _ => [demo_batch; demo_batch2] |}.

Definition demo_params : Params :=
  {| pointer := true;
     test_sample_ratio := PyFloat double_1;
     test_save_results := true;
     model_path_prefix := Some "checkpoints/m"%string;
     pack_seq := true;
     beam_size := 4;
     min_out_len := 1;
     max_out_len := None;
     out_len_in_words := true |}.

(** The same options, results not saved. *)
Definition demo_params_no_save : Params :=
  {| pointer := true;
     test_sample_ratio := PyFloat double_1;
     test_save_results := false;
     model_path_prefix := Some "checkpoints/m"%string;
     pack_seq := true;
     beam_size := 4;
     min_out_len := 1;
     max_out_len := None;
     out_len_in_words := true |}.

(** The same options, nothing sampled. *)
Definition demo_params_ratio_0 : Params :=
  {| pointer := true;
     test_sample_ratio := PyFloat double_0;
     test_save_results := false;
     model_path_prefix := None;
     pack_seq := true;
     beam_size := 4;
     min_out_len := 1;
     max_out_len := None;
     out_len_in_words := true |}.

(** A batch without example, a dataset whose generator yields it second,
    and a dataset whose generator yields one batch for two pairs. *)
Definition empty_batch : Batch :=
  {| examples := [];
     input_tensor := {| dim0 := 0; dim1 := 0; item := fun _ _ => 0%nat |};
     input_lengths := [];
     ext_vocab_size := 7;
     oov_dict := {| oov_index2word := ∅ |} |}.

Definition demo_dataset_bad : Dataset :=
  {| pairs := [demo_example; demo_example2];
     generator := fun _ _ _ _ => [demo_batch; empty_batch] |}.

Definition demo_dataset_short : Dataset :=
  {| pairs := [demo_example; demo_example2];
     generator := fun _ _ _ _ => [demo_batch] |}.

(** Decodes to [GAMMA RAY <EOS>] with average log-probability 1/2. *)
Definition overconfident_gamma_ray : BeamHypothesis :=
  {| tokens := [4; 5; 2]%nat; avg_log_prob := 1 # 2 |}.

(** A dataset of [n] pairs and the options with a given sample ratio, to
    evaluate line 130 on. *)
Definition dataset_of_size (n : nat) : Dataset :=
  {| pairs := repeat demo_example n;
     generator := fun _ _ _ _ => repeat demo_batch n |}.

Definition params_with_ratio (ratio : number) : Params :=
  {| pointer := true;
     test_sample_ratio := ratio;
     test_save_results := true;
     model_path_prefix := Some "checkpoints/m"%string;
     pack_seq := true;
     beam_size := 4;
     min_out_len := 1;
     max_out_len := None;
     out_len_in_words := true |}.

(** * Properties *)

(** ** The decoder *)

Lemma vocab_getitem_in_range (vocab : Vocab) (w : nat) :
  (w < vocab_len vocab)%nat ->
  exists s, index2word vocab !! w = Some s /\ vocab_getitem vocab w = Ok s.
Proof.
  intros Hw. unfold vocab_getitem.
  destruct (index2word vocab !! w) as [s|] eqn:E.
  - exists s. split; reflexivity.
  - apply lookup_ge_None in E. unfold vocab_len in Hw. lia.
Qed.

Lemma resolve_word_ok (vocab : Vocab) (oov_dict : OOVDict) (i w : nat) :
  resolve_word vocab oov_dict i w = Ok (resolved vocab oov_dict i w).
Proof.
  unfold resolved. unfold resolve_word.
  destruct (vocab_len vocab <=? w)%nat eqn:E; [reflexivity|].
  apply Nat.leb_gt in E.
  destruct (vocab_getitem_in_range vocab w E) as (s & _ & ->). reflexivity.
Qed.

Lemma decode_doc_loop_eq (vocab : Vocab) (oov_dict : OOVDict) (i : nat)
    (doc : list nat) :
  forall decoded_doc,
    decode_doc_loop vocab oov_dict i doc decoded_doc =
    Ok (decoded_doc ++ map (resolved vocab oov_dict i) (upto_eos (EOS vocab) doc)).
Proof.
  induction doc as [|w rest IH]; intros acc; simpl.
  - now rewrite app_nil_r.
  - rewrite resolve_word_ok. simpl.
    destruct (w =? EOS vocab)%nat.
    + reflexivity.
    + rewrite IH. now rewrite <- app_assoc.
Qed.

Lemma decode_batch_loop_eq (vocab : Vocab) (oov_dict : OOVDict)
    (docs : list (list nat)) :
  forall (i : nat) (decoded_batch : list (list string)),
    decode_batch_loop vocab oov_dict i docs decoded_batch =
    Ok (decoded_batch ++
        imap (fun j doc =>
                map (resolved vocab oov_dict (i + j)) (upto_eos (EOS vocab) doc))
             docs).
Proof.
  induction docs as [|doc rest IH]; intros i acc; simpl.
  - now rewrite app_nil_r.
  - rewrite decode_doc_loop_eq. simpl. rewrite IH.
    rewrite <- app_assoc. simpl. rewrite Nat.add_0_r.
    do 3 f_equal. apply imap_ext. intros j d _. simpl.
    now replace (i + S j)%nat with (S (i + j)) by lia.
Qed.

Lemma decode_batch_output_eq (decoded_tokens : DecodedTokens) (vocab : Vocab)
    (oov_dict : OOVDict) :
  decode_batch_output decoded_tokens vocab oov_dict =
  Ok (imap (fun i doc =>
              map (resolved vocab oov_dict i) (upto_eos (EOS vocab) doc))
           (as_docs decoded_tokens)).
Proof.
  unfold decode_batch_output. rewrite decode_batch_loop_eq. reflexivity.
Qed.

Lemma upto_eos_first (eos : nat) (doc : list nat) :
  forall k : nat,
    doc !! k = Some eos ->
    (forall j : nat, (j < k)%nat -> doc !! j <> Some eos) ->
    upto_eos eos doc = take (S k) doc.
Proof.
  induction doc as [|w rest IH]; intros k Hk Hfirst.
  - discriminate.
  - simpl. destruct (w =? eos)%nat eqn:E.
    + apply Nat.eqb_eq in E. subst w.
      destruct k as [|k]; [now rewrite take_0|].
      exfalso. apply (Hfirst 0%nat); [lia|reflexivity].
    + destruct k as [|k].
      * simpl in Hk. injection Hk as ->. rewrite Nat.eqb_refl in E. discriminate.
      * f_equal. apply IH; [exact Hk|].
        intros j Hj. apply (Hfirst (S j)). lia.
Qed.

Lemma upto_eos_absent (eos : nat) (doc : list nat) :
  (forall k : nat, doc !! k <> Some eos) -> upto_eos eos doc = doc.
Proof.
  induction doc as [|w rest IH]; intros Hno; [reflexivity|].
  simpl. destruct (w =? eos)%nat eqn:E.
  - apply Nat.eqb_eq in E. subst w. exfalso. now apply (Hno 0%nat).
  - f_equal. apply IH. intros k. apply (Hno (S k)).
Qed.

Lemma upto_eos_lookup (eos : nat) (doc : list nat) :
  forall (k w : nat), upto_eos eos doc !! k = Some w -> doc !! k = Some w.
Proof.
  induction doc as [|x rest IH]; intros k w; simpl; [discriminate|].
  destruct k as [|k]; [trivial|]. simpl.
  destruct (x =? eos)%nat; [discriminate|]. apply IH.
Qed.

(** A position with no end-of-sequence index before it is visited. *)
Lemma upto_eos_visited (eos : nat) (doc : list nat) :
  forall (k w : nat),
    doc !! k = Some w ->
    (forall j : nat, (j < k)%nat -> doc !! j <> Some eos) ->
    upto_eos eos doc !! k = Some w.
Proof.
  induction doc as [|x rest IH]; intros k w Hk Hbefore; [discriminate|].
  destruct k as [|k]; [exact Hk|].
  simpl. destruct (x =? eos)%nat eqn:E.
  - apply Nat.eqb_eq in E. subst x.
    exfalso. apply (Hbefore 0%nat); [lia|reflexivity].
  - apply IH; [exact Hk|].
    intros j Hj. apply (Hbefore (S j)). lia.
Qed.

(** Conversely, nothing is visited past an end-of-sequence index. *)
Lemma upto_eos_before (eos : nat) (doc : list nat) :
  forall (k w : nat),
    upto_eos eos doc !! k = Some w ->
    forall j : nat, (j < k)%nat -> doc !! j <> Some eos.
Proof.
  induction doc as [|x rest IH]; intros k w Hk j Hj; [discriminate|].
  destruct k as [|k]; [lia|].
  simpl in Hk. destruct (x =? eos)%nat eqn:E; [discriminate|].
  apply Nat.eqb_neq in E.
  destruct j as [|j]; [simpl; congruence|].
  simpl. apply (IH k w Hk). lia.
Qed.

Lemma Forall2_resolved (vocab : Vocab) (oov_dict : OOVDict) (i : nat)
    (l : list nat) :
  Forall2 (fun w s => resolve_word vocab oov_dict i w = Ok s)
    l (map (resolved vocab oov_dict i) l).
Proof.
  induction l as [|w l IH]; simpl; constructor; [apply resolve_word_ok|exact IH].
Qed.

(** C3. Whatever the shape of the input, the sequence of example [i] is
    decoded without error into the strings of its indices up to and
    including the first end-of-sequence index (the first [k+1] of them when
    that index is first met at position [k]) and into the strings of all
    its indices when it contains none. *)
Theorem decode_batch_output_stops_at_EOS
    (decoded_tokens : DecodedTokens) (vocab : Vocab) (oov_dict : OOVDict)
    (i : nat) (doc : list nat) :
  as_docs decoded_tokens !! i = Some doc ->
  exists decoded_batch decoded_doc,
    decode_batch_output decoded_tokens vocab oov_dict = Ok decoded_batch /\
    decoded_batch !! i = Some decoded_doc /\
    truncated_at_EOS vocab oov_dict i doc decoded_doc.
Proof.
  intros Hdoc. rewrite decode_batch_output_eq.
  eexists. exists (map (resolved vocab oov_dict i) (upto_eos (EOS vocab) doc)).
  split; [reflexivity|]. split.
  - rewrite list_lookup_imap. rewrite Hdoc. reflexivity.
  - split.
    + intros k Hk Hfirst. rewrite (upto_eos_first _ _ k Hk Hfirst).
      apply Forall2_resolved.
    + intros Hno. rewrite (upto_eos_absent _ _ Hno). apply Forall2_resolved.
Qed.

Lemma resolve_word_cases (vocab : Vocab) (oov_dict : OOVDict) (i w : nat) :
  base_or_oov_or_unk vocab oov_dict i w (resolved vocab oov_dict i w).
Proof.
  unfold base_or_oov_or_unk, resolved, resolve_word, dict_get.
  destruct (vocab_len vocab <=? w)%nat eqn:E.
  - apply Nat.leb_le in E. right.
    destruct (oov_index2word oov_dict !! (i, w)) as [s|] eqn:Hoov.
    + left. split; [exact E|reflexivity].
    + right. split; [exact E|]. split; reflexivity.
  - apply Nat.leb_gt in E. left. split; [exact E|].
    destruct (vocab_getitem_in_range vocab w E) as (s & Hs & ->). exact Hs.
Qed.

(** C4. Resolution of an index never raises and follows the three cases:
    the base token when the index is below [len(vocab)] (whatever the OOV
    dictionary holds), otherwise the OOV entry of [(i, w)], otherwise
    ["<UNK>"]; [decode_batch_output] never raises either, and what it
    returns is made of these resolutions and of nothing else: the index
    [w] that example [i] of the input holds at position [k], with no
    end-of-sequence index before it, is resolved at position [k] of
    document [i] of the result, and every string of the result is the
    resolution of such an index, at the same place. *)
Theorem decode_batch_output_resolution
    (decoded_tokens : DecodedTokens) (vocab : Vocab) (oov_dict : OOVDict) :
  (forall i w : nat,
      exists s, resolve_word vocab oov_dict i w = Ok s /\
                base_or_oov_or_unk vocab oov_dict i w s) /\
  exists decoded_batch,
    decode_batch_output decoded_tokens vocab oov_dict = Ok decoded_batch /\
    length decoded_batch = length (as_docs decoded_tokens) /\
    (forall (i : nat) (doc : list nat) (k w : nat),
        as_docs decoded_tokens !! i = Some doc ->
        doc !! k = Some w ->
        (forall j : nat, (j < k)%nat -> doc !! j <> Some (EOS vocab)) ->
        exists decoded_doc s,
          decoded_batch !! i = Some decoded_doc /\
          decoded_doc !! k = Some s /\
          resolve_word vocab oov_dict i w = Ok s /\
          base_or_oov_or_unk vocab oov_dict i w s) /\
    forall (i : nat) (decoded_doc : list string) (k : nat) (s : string),
      decoded_batch !! i = Some decoded_doc ->
      decoded_doc !! k = Some s ->
      exists doc w,
        as_docs decoded_tokens !! i = Some doc /\
        doc !! k = Some w /\
        (forall j : nat, (j < k)%nat -> doc !! j <> Some (EOS vocab)) /\
        resolve_word vocab oov_dict i w = Ok s /\
        base_or_oov_or_unk vocab oov_dict i w s.
Proof.
  split.
  - intros i w. exists (resolved vocab oov_dict i w).
    split; [apply resolve_word_ok|apply resolve_word_cases].
  - rewrite decode_batch_output_eq. eexists. split; [reflexivity|].
    split; [apply length_imap|]. split.
    + intros i doc k w Hdoc Hk Hbefore.
      exists (map (resolved vocab oov_dict i) (upto_eos (EOS vocab) doc)),
             (resolved vocab oov_dict i w).
      split; [now rewrite list_lookup_imap, Hdoc|].
      split; [|split; [apply resolve_word_ok|apply resolve_word_cases]].
      rewrite list_lookup_fmap.
      now rewrite (upto_eos_visited _ _ k w Hk Hbefore).
    + intros i decoded_doc k s Hi Hk.
      rewrite list_lookup_imap in Hi.
      destruct (as_docs decoded_tokens !! i) as [doc|] eqn:Hdoc; [|discriminate].
      simpl in Hi. injection Hi as <-.
      rewrite list_lookup_fmap in Hk.
      destruct (upto_eos (EOS vocab) doc !! k) as [w|] eqn:Hw; [|discriminate].
      simpl in Hk. injection Hk as <-.
      exists doc, w. split; [reflexivity|]. split.
      * now apply upto_eos_lookup in Hw.
      * split; [exact (upto_eos_before _ _ _ _ Hw)|].
        split; [apply resolve_word_ok|apply resolve_word_cases].
Qed.

(** ** [str.split()] *)

(** The tokens of [py_split] are non-empty and free of spaces. *)
Lemma py_split_tokens (s : string) :
  Forall (fun w => truthy_str w = true /\ no_space w = true) (py_split s).
Proof.
  induction s as [|c s IH]; simpl; [constructor|].
  destruct (is_space c) eqn:Ec; [exact IH|].
  assert (Hc : truthy_str (String c EmptyString) = true /\
               no_space (String c EmptyString) = true)
    by (simpl; now rewrite Ec).
  destruct s as [|c' s']; [now constructor|].
  destruct (is_space c') eqn:Ec'; [now constructor|].
  destruct (py_split (String c' s')) as [|w ws]; [now constructor|].
  inversion IH as [|? ? [_ Hw] Hws]; subst.
  constructor; [|exact Hws].
  split; [reflexivity|]. simpl. now rewrite Ec, Hw.
Qed.

Example py_split_demo :
  py_split (String " " ("GAMMA  RAY" +:+ String "010" "<EOS> "))
  = ["GAMMA"; "RAY"; "<EOS>"]%string /\
  py_split "   "%string = [] /\
  py_split (join_tokens ["DEPTH"; "FT"]%string) = ["DEPTH"; "FT"]%string.
Proof. repeat split; reflexivity. Qed.

(** ** Python list indexing *)

Lemma py_getitem_raise {A} (l : list A) (i : Z) (e : exn) :
  py_getitem l i = Raise e -> e = IndexError.
Proof.
  unfold py_getitem.
  destruct (_ && _); [destruct (nth_error _ _)|]; congruence.
Qed.

Lemma py_getitem_nonneg {A} (l : list A) (n : nat) :
  py_getitem l (Z.of_nat n) =
  match l !! n with Some a => Ok a | None => Raise IndexError end.
Proof.
  unfold py_getitem.
  destruct (Z.of_nat n <? 0) eqn:E; [apply Z.ltb_lt in E; lia|].
  rewrite Nat2Z.id.
  replace (nth_error l n) with (l !! n)
    by (clear; revert n; induction l; intros [|n]; simpl; auto).
  destruct (l !! n) as [a|] eqn:Hl.
  - apply lookup_lt_Some in Hl.
    replace (0 <=? Z.of_nat n) with true by (symmetry; apply Z.leb_le; lia).
    replace (Z.of_nat n <? Z.of_nat (length l)) with true
      by (symmetry; apply Z.ltb_lt; lia).
    reflexivity.
  - now destruct (_ && _).
Qed.

Lemma py_getitem_0 {A} (l : list A) :
  py_getitem l 0 = match l with a :: _ => Ok a | [] => Raise IndexError end.
Proof.
  change (py_getitem l 0) with (py_getitem l (Z.of_nat 0)).
  rewrite py_getitem_nonneg. now destruct l.
Qed.

Lemma py_getitem_1 {A} (l : list A) :
  py_getitem l 1 =
  match l with _ :: b :: _ => Ok b | _ => Raise IndexError end.
Proof.
  change (py_getitem l 1) with (py_getitem l (Z.of_nat 1)).
  rewrite py_getitem_nonneg. now destruct l as [|a [|b l]].
Qed.

Lemma py_getitem_last {A} (l : list A) :
  py_getitem l (-1) =
  match last l with Some a => Ok a | None => Raise IndexError end.
Proof.
  destruct l as [|a l] using rev_ind; [reflexivity|].
  rewrite last_snoc. unfold py_getitem. cbv zeta.
  change (-1 <? 0) with true. cbv iota.
  rewrite length_app. simpl length.
  replace (Z.of_nat (length l + 1) + -1) with (Z.of_nat (length l)) by lia.
  assert (H1 : (0 <=? Z.of_nat (length l)) = true) by (apply Z.leb_le; lia).
  assert (H2 : (Z.of_nat (length l) <? Z.of_nat (length l + 1)) = true)
    by (apply Z.ltb_lt; lia).
  rewrite H1, H2. simpl. rewrite Nat2Z.id. rewrite nth_error_app2 by lia.
  now rewrite Nat.sub_diag.
Qed.

(** ** [math.log] *)

Lemma math_log_domain (libm_log : Q -> Z -> R) (x : Q) :
  (x <= 0)%Q -> math_log libm_log x 10 = Raise ValueError.
Proof.
  intros Hx. unfold math_log.
  now replace (Qle_bool x 0) with true by (symmetry; now apply Qle_bool_iff).
Qed.

Lemma math_log_positive (libm_log : Q -> Z -> R) (x : Q) :
  (0 < x)%Q -> math_log libm_log x 10 = Ok (libm_log x 10).
Proof.
  intros Hx. unfold math_log.
  destruct (Qle_bool x 0) eqn:E.
  - apply Qle_bool_iff in E. exfalso. apply (Qlt_not_le _ _ Hx E).
  - reflexivity.
Qed.

Lemma math_log_raise (libm_log : Q -> Z -> R) (x : Q) (e : exn) :
  math_log libm_log x 10 = Raise e -> e = ValueError.
Proof.
  unfold math_log. destruct (Qle_bool x 0); simpl; congruence.
Qed.

(** ** [eval_bs_batch] *)

Section BatchEvaluator.

Variable libm_log : Q -> Z -> R.
Hypothesis libm_log_accurate : accurate libm_log.
Variable format_tokens : list string -> string.

Lemma eval_bs_batch_eq (batch : Batch) (model : Seq2Seq) (vocab : Vocab)
    (pack_seq : bool) (beam_size min_out_len : nat) (max_out_len : option nat)
    (len_in_words best_only details : bool) (tr : list event) :
  eval_bs_batch libm_log format_tokens batch model vocab pack_seq beam_size
    min_out_len max_out_len len_in_words best_only details tr =
  if (length (examples batch) =? 1)%nat
  then (after_beam_search libm_log format_tokens batch vocab best_only details
          (hypotheses_of model batch pack_seq beam_size min_out_len
             max_out_len len_in_words),
        tr ++ [beam_search_event batch pack_seq beam_size min_out_len
                 max_out_len len_in_words])
  else (Raise AssertionError, tr).
Proof.
  unfold eval_bs_batch, after_beam_search, hypotheses_of, beam_search_event,
    call_beam_search, bind, lift, emit, ret, py_assert.
  destruct (length (examples batch) =? 1)%nat; [|reflexivity].
  destruct (select_hypotheses libm_log _ _) as [[to_decode probability]|e];
    [|reflexivity].
  simpl.
  destruct (decode_batch_output _ _ _) as [decoded_batch|e]; [|reflexivity].
  simpl.
  destruct (predicted_label _ _ _) as [predicted|e]; [|reflexivity].
  simpl.
  destruct (mnemonic _ _ _) as [mnem|e]; [|reflexivity].
  simpl.
  destruct (read_local "mnem" mnem) as [m|e]; [|reflexivity].
  simpl.
  destruct (read_local "probability" probability) as [pr|e]; reflexivity.
Qed.


Lemma select_hypotheses_best (h : BeamHypothesis) (hs : list BeamHypothesis) :
  select_hypotheses libm_log true (h :: hs) =
  try probability <- math_log libm_log (- avg_log_prob h) 10;
  Ok ([tokens h], Some probability).
Proof. unfold select_hypotheses. rewrite py_getitem_0. reflexivity. Qed.

Lemma select_hypotheses_raise (best_only : bool)
    (hypotheses : list BeamHypothesis) (e : exn) :
  select_hypotheses libm_log best_only hypotheses = Raise e ->
  best_only = true /\ (e = IndexError \/ e = ValueError).
Proof.
  unfold select_hypotheses. destruct best_only; [|discriminate].
  intros H. split; [reflexivity|].
  destruct (py_getitem hypotheses 0) as [h|e'] eqn:E; simpl in H.
  - destruct (math_log libm_log _ _) as [p|e'] eqn:E'; simpl in H;
    [discriminate|].
    injection H as <-. right. exact (math_log_raise _ _ _ E').
  - injection H as <-. left. exact (py_getitem_raise _ _ _ E).
Qed.

Lemma predicted_label_raise (details : bool)
    (decoded_batch : list (list string)) (e : exn) :
  predicted_label format_tokens details decoded_batch = Raise e ->
  details = true /\ e = IndexError.
Proof.
  unfold predicted_label. destruct details; [|discriminate].
  intros H. split; [reflexivity|].
  destruct (py_getitem decoded_batch 0) as [d|e0] eqn:E0; simpl in H;
    [|injection H as <-; exact (py_getitem_raise _ _ _ E0)].
  destruct (py_getitem (py_split _) 0) as [w0|e1] eqn:E1; simpl in H;
    [|injection H as <-; exact (py_getitem_raise _ _ _ E1)].
  destruct (py_getitem (py_split _) 1) as [w1|e2] eqn:E2; simpl in H;
    [discriminate|injection H as <-; exact (py_getitem_raise _ _ _ E2)].
Qed.

Lemma mnemonic_raise (details : bool) (batch : Batch) (e : exn) :
  mnemonic format_tokens details batch = Raise e ->
  details = true /\ e = IndexError.
Proof.
  unfold mnemonic. destruct details; [|discriminate].
  intros H. split; [reflexivity|].
  destruct (py_getitem (examples batch) 0) as [ex|e0] eqn:E0; simpl in H;
    [|injection H as <-; exact (py_getitem_raise _ _ _ E0)].
  destruct (py_getitem _ (-1)) as [m|e1] eqn:E1; simpl in H;
    [discriminate|injection H as <-; exact (py_getitem_raise _ _ _ E1)].
Qed.

(** The label and the mnemonic are bound, or left unbound, by [details]. *)
Lemma predicted_label_ok (details : bool) (decoded_batch : list (list string))
    (predicted : option string) :
  predicted_label format_tokens details decoded_batch = Ok predicted ->
  if details then exists w, predicted = Some w /\ truthy_str w = true
  else predicted = None.
Proof.
  unfold predicted_label. destruct details; [|congruence].
  destruct (py_getitem decoded_batch 0) as [d|]; simpl; [|discriminate].
  destruct (py_getitem _ 0) as [w0|]; simpl; [|discriminate].
  destruct (py_getitem _ 1) as [w1|]; simpl; [|discriminate].
  intros [= <-]. eexists. split; [reflexivity|].
  destruct w0; reflexivity.
Qed.

Lemma mnemonic_ok (details : bool) (batch : Batch) (mnem : option string) :
  mnemonic format_tokens details batch = Ok mnem ->
  if details then exists m, mnem = Some m else mnem = None.
Proof.
  unfold mnemonic. destruct details; [|congruence].
  destruct (py_getitem (examples batch) 0) as [ex|]; simpl; [|discriminate].
  destruct (py_getitem _ (-1)) as [m|]; simpl; [|discriminate].
  intros [= <-]. now eexists.
Qed.

(** The exceptions the steps after the decoding call can raise. *)
Lemma after_beam_search_raise (batch : Batch) (vocab : Vocab)
    (best_only details : bool) (hypotheses : list BeamHypothesis) (e : exn) :
  after_beam_search libm_log format_tokens batch vocab best_only details
    hypotheses = Raise e ->
  e = IndexError \/ e = ValueError \/
  e = UnboundLocalError "mnem" \/ e = UnboundLocalError "probability".
Proof.
  unfold after_beam_search.
  destruct (select_hypotheses libm_log best_only hypotheses)
    as [[to_decode probability]|e0] eqn:Es; simpl.
  2:{ intros [= <-]. destruct (select_hypotheses_raise _ _ _ Es) as [_ [->| ->]];
        auto. }
  rewrite decode_batch_output_eq. simpl.
  destruct (predicted_label _ _ _) as [predicted|e1] eqn:Ep; simpl.
  2:{ intros [= <-]. destruct (predicted_label_raise _ _ _ Ep) as [_ ->]. auto. }
  destruct (mnemonic _ _ _) as [mnem|e2] eqn:Em; simpl.
  2:{ intros [= <-]. destruct (mnemonic_raise _ _ _ Em) as [_ ->]. auto. }
  destruct mnem as [m|]; simpl; [|intros [= <-]; auto].
  destruct probability as [pr|]; simpl; [discriminate|intros [= <-]; auto].
Qed.

(** The run of the remaining steps when everything the label needs is
    there. *)
Lemma after_beam_search_ok (batch : Batch) (vocab : Vocab)
    (example : DataExample) (h : BeamHypothesis) (hs : list BeamHypothesis)
    (decoded_doc : list string) (w0 w1 : string) (rest : list string)
    (mnem : string) :
  examples batch = [example] ->
  (avg_log_prob h < 0)%Q ->
  decode_batch_output (PyList [tokens h]) vocab (oov_dict batch)
    = Ok [decoded_doc] ->
  py_split (format_tokens decoded_doc) = w0 :: w1 :: rest ->
  last (py_split (format_tokens (src example))) = Some mnem ->
  after_beam_search libm_log format_tokens batch vocab true true (h :: hs) =
  Ok (Some (w0 +:+ " " +:+ w1), mnem, libm_log (- avg_log_prob h) 10).
Proof.
  intros Hex Havg Hdec Hsplit Hlast. unfold after_beam_search.
  rewrite select_hypotheses_best.
  rewrite math_log_positive.
  2:{ apply (Qopp_lt_compat (avg_log_prob h) 0) in Havg. exact Havg. }
  simpl. rewrite Hdec. simpl.
  unfold predicted_label, mnemonic. rewrite !py_getitem_0. simpl.
  rewrite Hsplit. rewrite py_getitem_1. simpl.
  rewrite Hex. simpl.
  rewrite py_getitem_last. rewrite Hlast. reflexivity.
Qed.

(** C1 (amended). For a batch of one example decoded with [details] and
    [best_only], whose top hypothesis has a negative average
    log-probability and detokenizes to at least two whitespace-separated
    tokens, and whose source detokenizes to at least one, [eval_bs_batch]
    returns as label the first two tokens joined by one space and as
    mnemonic the last token of the detokenized source. *)
Theorem eval_bs_batch_label_and_mnemonic
    (batch : Batch) (model : Seq2Seq) (vocab : Vocab) (pack_seq : bool)
    (beam_size min_out_len : nat) (max_out_len : option nat)
    (len_in_words : bool) (tr : list event)
    (example : DataExample) (h : BeamHypothesis) (hs : list BeamHypothesis)
    (decoded_doc : list string) (w0 w1 : string) (rest : list string)
    (mnem : string) :
  examples batch = [example] ->
  hypotheses_of model batch pack_seq beam_size min_out_len max_out_len
    len_in_words = h :: hs ->
  (avg_log_prob h < 0)%Q ->
  decode_batch_output (PyList [tokens h]) vocab (oov_dict batch)
    = Ok [decoded_doc] ->
  py_split (format_tokens decoded_doc) = w0 :: w1 :: rest ->
  last (py_split (format_tokens (src example))) = Some mnem ->
  exists probability,
    eval_bs_batch libm_log format_tokens batch model vocab pack_seq beam_size
      min_out_len max_out_len len_in_words true true tr =
    (Ok (Some (w0 +:+ " " +:+ w1), mnem, probability),
     tr ++ [beam_search_event batch pack_seq beam_size min_out_len
              max_out_len len_in_words]).
Proof.
  intros Hex Hhyp Havg Hdec Hsplit Hlast.
  rewrite eval_bs_batch_eq. rewrite Hex. simpl. rewrite Hhyp.
  rewrite (after_beam_search_ok batch vocab example h hs decoded_doc w0 w1
             rest mnem Hex Havg Hdec Hsplit Hlast).
  eexists. reflexivity.
Qed.


(** Without [details], [mnem] is never bound. *)
Lemma after_beam_search_without_details (batch : Batch) (vocab : Vocab)
    (best_only : bool) (hypotheses : list BeamHypothesis) :
  match select_hypotheses libm_log best_only hypotheses with
  | Ok _ =>
      after_beam_search libm_log format_tokens batch vocab best_only false
      hypotheses = Raise (UnboundLocalError "mnem")
  | Raise e =>
      after_beam_search libm_log format_tokens batch vocab best_only false
      hypotheses = Raise e
  end.
Proof.
  unfold after_beam_search.
  destruct (select_hypotheses libm_log best_only hypotheses)
    as [[to_decode probability]|e]; simpl; [|reflexivity].
  rewrite decode_batch_output_eq. reflexivity.
Qed.

(** Without [best_only], [probability] is never bound. *)
Lemma after_beam_search_all_hypotheses (batch : Batch) (vocab : Vocab)
    (details : bool) (hypotheses : list BeamHypothesis) :
  exists e,
    after_beam_search libm_log format_tokens batch vocab false details
    hypotheses = Raise e /\
    (e = IndexError \/ e = UnboundLocalError "mnem" \/
     e = UnboundLocalError "probability").
Proof.
  unfold after_beam_search. simpl.
  rewrite decode_batch_output_eq. simpl.
  destruct (predicted_label _ _ _) as [predicted|e1] eqn:Ep; simpl.
  2:{ exists e1. split; [reflexivity|].
      destruct (predicted_label_raise _ _ _ Ep) as [_ ->]. auto. }
  destruct (mnemonic _ _ _) as [mnem|e2] eqn:Em; simpl.
  2:{ exists e2. split; [reflexivity|].
      destruct (mnemonic_raise _ _ _ Em) as [_ ->]. auto. }
  destruct mnem as [m|]; simpl; eexists; split; try reflexivity; auto.
Qed.


(** C5. A batch whose number of examples is not 1 makes [eval_bs_batch]
    raise [AssertionError] (the invalid-batch-size condition) with the
    trace untouched, so before the model is called; a batch of exactly one
    example passes the check: the decoding call is made, once, and whatever
    happens afterwards is not an [AssertionError]. *)
Theorem eval_bs_batch_requires_one_example
    (batch : Batch) (model : Seq2Seq) (vocab : Vocab) (pack_seq : bool)
    (beam_size min_out_len : nat) (max_out_len : option nat)
    (len_in_words best_only details : bool) (tr : list event) :
  (length (examples batch) <> 1%nat ->
     eval_bs_batch libm_log format_tokens batch model vocab pack_seq beam_size
       min_out_len max_out_len len_in_words best_only details tr
     = (Raise AssertionError, tr)) /\
  (length (examples batch) = 1%nat ->
     exists r,
       eval_bs_batch libm_log format_tokens batch model vocab pack_seq beam_size
         min_out_len max_out_len len_in_words best_only details tr
       = (r, tr ++ [beam_search_event batch pack_seq beam_size min_out_len
                      max_out_len len_in_words]) /\
       r <> Raise AssertionError).
Proof.
  rewrite eval_bs_batch_eq. split.
  - intros Hlen. apply Nat.eqb_neq in Hlen. now rewrite Hlen.
  - intros Hlen. rewrite Hlen. simpl. eexists. split; [reflexivity|].
    intros H. apply after_beam_search_raise in H.
    destruct H as [H|[H|[H|H]]]; discriminate.
Qed.

(** C6 (what the code does). With [details] unset the call never returns:
    it raises, and for a batch of one example whose score can be computed
    (or is not asked for) the exception is the [UnboundLocalError] of
    [mnem], which line 116 assigns only under [details] and line 117
    reads. *)
Theorem eval_bs_batch_without_details_raises
    (batch : Batch) (model : Seq2Seq) (vocab : Vocab) (pack_seq : bool)
    (beam_size min_out_len : nat) (max_out_len : option nat)
    (len_in_words best_only : bool) (tr : list event) :
  exists e tr',
    eval_bs_batch libm_log format_tokens batch model vocab pack_seq beam_size
      min_out_len max_out_len len_in_words best_only false tr
    = (Raise e, tr') /\
    (length (examples batch) = 1%nat ->
     (best_only = true ->
      exists h hs,
        hypotheses_of model batch pack_seq beam_size min_out_len max_out_len
          len_in_words = h :: hs /\
        (avg_log_prob h < 0)%Q) ->
     e = UnboundLocalError "mnem").
Proof.
  rewrite eval_bs_batch_eq.
  destruct (length (examples batch) =? 1)%nat eqn:Hlen.
  - pose proof (after_beam_search_without_details batch vocab best_only
                  (hypotheses_of model batch pack_seq beam_size min_out_len
                     max_out_len len_in_words)) as H.
    destruct (select_hypotheses libm_log best_only _) as [sel|e] eqn:Es.
    + rewrite H. do 2 eexists. split; [reflexivity|]. reflexivity.
    + rewrite H. exists e. eexists. split; [reflexivity|].
      intros _ Hbest. exfalso.
      destruct (select_hypotheses_raise _ _ _ Es) as [-> _].
      destruct (Hbest eq_refl) as (h & hs & Hhyp & Havg).
      rewrite Hhyp, select_hypotheses_best in Es.
      rewrite math_log_positive in Es; [discriminate|].
      exact (Qopp_lt_compat (avg_log_prob h) 0 Havg).
  - do 2 eexists. split; [reflexivity|].
    intros Hone. apply Nat.eqb_neq in Hlen. contradiction.
Qed.

(** C7 (what the code does). Without [best_only] every hypothesis is
    selected for decoding, but the call never returns: [probability] is
    assigned only under [best_only] (line 105) and line 117 reads it, so
    the call raises, at the latest with the [UnboundLocalError] of
    [probability]. *)
Theorem eval_bs_batch_all_hypotheses_raises
    (batch : Batch) (model : Seq2Seq) (vocab : Vocab) (pack_seq : bool)
    (beam_size min_out_len : nat) (max_out_len : option nat)
    (len_in_words details : bool) (tr : list event) :
  (forall hypotheses,
      select_hypotheses libm_log false hypotheses = Ok (map tokens hypotheses,
  None)) /\ exists e tr',
    eval_bs_batch libm_log format_tokens batch model vocab pack_seq beam_size
      min_out_len max_out_len len_in_words false details tr
    = (Raise e, tr') /\
    (e = AssertionError \/ e = IndexError \/
     e = UnboundLocalError "mnem" \/ e = UnboundLocalError "probability").
Proof.
  split; [reflexivity|].
  rewrite eval_bs_batch_eq.
  destruct (length (examples batch) =? 1)%nat.
  - destruct (after_beam_search_all_hypotheses batch vocab details
                (hypotheses_of model batch pack_seq beam_size min_out_len
                   max_out_len len_in_words)) as (e & -> & He).
    exists e. eexists. split; [reflexivity|]. tauto.
  - do 2 eexists. split; [reflexivity|]. auto.
Qed.

End BatchEvaluator.

(** ** Sample count, traces and aggregation *)

(** The conversion of an [int] to a float: a mantissa of [d] bits is
    shifted to 53 bits, which no rounding changes. *)
Lemma digits2_pos_shift (m k : positive) :
  digits2_pos (Pos.iter xO m k) = (digits2_pos m + k)%positive.
Proof.
  induction k as [|k IH] using Pos.peano_ind.
  - simpl. lia.
  - rewrite Pos.iter_succ. simpl. rewrite IH. lia.
Qed.

Lemma digits2_pos_bound (p : positive) :
  forall k : Z, 0 <= k -> Z.pos p < 2 ^ k -> Z.pos (digits2_pos p) <= k.
Proof.
  induction p as [p IH|p IH|]; intros k Hk Hp.
  - assert (k <> 0) by (intros ->; simpl in Hp; lia).
    replace k with (Z.succ (k - 1)) in Hp by lia.
    rewrite Z.pow_succ_r in Hp by lia.
    specialize (IH (k - 1)). simpl. lia.
  - assert (k <> 0) by (intros ->; simpl in Hp; lia).
    replace k with (Z.succ (k - 1)) in Hp by lia.
    rewrite Z.pow_succ_r in Hp by lia.
    specialize (IH (k - 1)). simpl. lia.
  - assert (k <> 0) by (intros ->; simpl in Hp; lia). simpl. lia.
Qed.

Lemma binary_round_aux_canonical (s : bool) (m : positive) (e : Z) :
  Z.pos (digits2_pos m) = 53 -> -1074 <= e <= 971 ->
  binary_round_aux 53 1024 s (Z.pos m) e loc_Exact = S754_finite s m e.
Proof.
  intros Hd He.
  unfold binary_round_aux, shr_fexp, fexp, emin, Zdigits2.
  rewrite Hd.
  replace (Z.max (53 + e - 53) (3 - 1024 - 53) - e) with 0 by lia.
  cbn [shr shr_record_of_loc shr_m loc_of_shr_record round_nearest_even].
  rewrite Hd.
  replace (Z.max (53 + e - 53) (3 - 1024 - 53) - e) with 0 by lia.
  cbn [shr shr_record_of_loc shr_m].
  replace (e <=? 1024 - 53) with true by (symmetry; apply Z.leb_le; lia).
  reflexivity.
Qed.

Lemma pos_iter_xO (p k : positive) :
  Z.pos (Pos.iter xO p k) = Z.pos p * 2 ^ Z.pos k.
Proof.
  induction k as [|k IH] using Pos.peano_ind.
  - simpl. lia.
  - rewrite Pos.iter_succ, Pos2Z.inj_succ, Z.pow_succ_r by lia.
    rewrite Pos2Z.inj_xO, IH. lia.
Qed.

(** A positive [int] below [2^53] is converted without rounding: to a
    double of 53 bits of mantissa whose value is the [int]. *)
Lemma float_of_int_small (p : positive) :
  Z.pos p < 2 ^ 53 ->
  exists m e,
    float_of_int (Z.pos p) = Ok (S754_finite false m e) /\
    Z.pos (digits2_pos m) = 53 /\ -52 <= e <= 0 /\
    Z.pos m = Z.pos p * 2 ^ (- e).
Proof.
  intros Hn. unfold float_of_int, binary_normalize.
  assert (Hd : Z.pos (digits2_pos p) <= 53)
    by (apply digits2_pos_bound; [lia|exact Hn]).
  unfold binary_round, shl_align, fexp, emin.
  set (d := digits2_pos p) in *.
  replace (Z.max (Z.pos d + 0 - 53) (3 - 1024 - 53)) with (Z.pos d - 53)
    by lia.
  destruct (Z.pos d - 53 - 0) as [|q|q] eqn:Hq; try lia.
  - rewrite binary_round_aux_canonical by (fold d; lia).
    exists p, 0. repeat split; try (fold d; lia).
  - rewrite binary_round_aux_canonical
      by (rewrite ?digits2_pos_shift; fold d; lia).
    exists (Pos.iter xO p q), (Z.pos d - 53).
    split; [reflexivity|]. rewrite digits2_pos_shift. fold d.
    repeat split; try lia.
    rewrite pos_iter_xO. f_equal. f_equal. lia.
Qed.

(** Multiplying by [1.0] changes nothing. *)
Lemma SFmul_1 (s : bool) (m : positive) (e : Z) :
  Z.pos (digits2_pos m) = 53 -> -1022 <= e <= 971 ->
  SFmul 53 1024 double_1 (S754_finite s m e) = S754_finite s m e.
Proof.
  intros Hd He. unfold SFmul, double_1.
  unfold binary_round_aux, shr_fexp, fexp, emin, Zdigits2.
  replace (Z.pos (digits2_pos (4503599627370496 * m))) with 105.
  2:{ change (4503599627370496 * m)%positive with (Pos.iter xO m 52).
      rewrite digits2_pos_shift. lia. }
  replace (Z.max (105 + (-52 + e) - 53) (3 - 1024 - 53) - (-52 + e))
    with 52 by lia.
  cbv beta iota zeta delta
    [Pos.mul xorb shr SpecFloat.iter_pos shr_1 shr_record_of_loc orb shr_m
     loc_of_shr_record round_nearest_even].
  rewrite Hd.
  replace (Z.max (53 + (-52 + e + 52) - 53) (3 - 1024 - 53)
           - (-52 + e + 52)) with 0 by lia.
  cbv beta iota zeta delta [shr shr_record_of_loc shr_m].
  replace (-52 + e + 52 <=? 1024 - 53) with true
    by (symmetry; apply Z.leb_le; lia).
  f_equal. lia.
Qed.

Lemma py_int_of_int (p m : positive) (e : Z) :
  -52 <= e <= 0 -> Z.pos m = Z.pos p * 2 ^ (- e) ->
  py_int (PyFloat (S754_finite false m e)) = Ok (Z.pos p).
Proof.
  intros He Hm. unfold py_int. cbv zeta. f_equal.
  rewrite <- Z.shiftr_opp_r.
  rewrite Z.shiftr_div_pow2 by lia.
  rewrite Hm. apply Z.div_mul. lia.
Qed.


(** A rounded result has the sign it was asked for. *)
Lemma binary_round_aux_sign (s : bool) (m e : Z) (l : location) :
  match binary_round_aux 53 1024 s m e l with
  | S754_zero s' | S754_finite s' _ _ | S754_infinity s' => s' = s
  | S754_nan => True
  end.
Proof.
  unfold binary_round_aux.
  destruct (shr_fexp 53 1024 m e l) as [mrs' e'].
  destruct (shr_fexp 53 1024 _ e' loc_Exact) as [mrs'' e''].
  destruct (shr_m mrs''); [reflexivity| |exact I].
  destruct (e'' <=? 1024 - 53); reflexivity.
Qed.

(** The float of a list length has a clear sign bit. *)
Lemma float_of_int_sign (n : Z) (y : spec_float) :
  0 <= n -> float_of_int n = Ok y ->
  (exists m e, y = S754_finite false m e) \/ y = S754_zero false.
Proof.
  intros Hn. unfold float_of_int, binary_normalize.
  destruct n as [|p|p]; [intros [= <-]; auto| |lia].
  unfold binary_round.
  destruct (shl_align _ _ _) as [mz ez].
  pose proof (binary_round_aux_sign false (Z.pos mz) ez loc_Exact) as Hs.
  destruct (binary_round_aux 53 1024 false (Z.pos mz) ez loc_Exact)
    as [s'|s'| |s' m e]; try discriminate; subst s'; intros [= <-]; eauto.
Qed.



(** Line 130 with a ratio of [1.0]: the count is the number of pairs. *)
Lemma n_samples_ratio_1 (test_set : Dataset) (params : Params) :
  test_sample_ratio params = PyFloat double_1 ->
  Z.of_nat (length (pairs test_set)) < 2 ^ 53 ->
  n_samples test_set params = Ok (Z.of_nat (length (pairs test_set))).
Proof.
  intros Hratio Hsmall. unfold n_samples, py_mul_int. rewrite Hratio.
  destruct (Z.of_nat (length (pairs test_set))) as [|n|n] eqn:Hlen;
    [reflexivity| |lia].
  destruct (float_of_int_small n Hsmall) as (m & e & -> & Hd & He & Hm).
  cbn [rbind]. rewrite SFmul_1 by lia.
  exact (py_int_of_int n m e He Hm).
Qed.

(** Line 130 with a float ratio whose sign bit is clear: the count is not
    negative. *)
Lemma n_samples_nonneg (test_set : Dataset) (params : Params) (n : Z) :
  (exists m e, test_sample_ratio params = PyFloat (S754_finite false m e)) \/
  test_sample_ratio params = PyFloat (S754_zero false) ->
  n_samples test_set params = Ok n ->
  0 <= n.
Proof.
  intros Hratio. unfold n_samples, py_mul_int.
  assert (Hx : exists x, test_sample_ratio params = PyFloat x /\
                 ((exists m e, x = S754_finite false m e) \/
                  x = S754_zero false)).
  { destruct Hratio as [(m & e & ->)| ->]; eauto 6. }
  destruct Hx as (x & -> & Hx).
  destruct (float_of_int (Z.of_nat (length (pairs test_set)))) as [y|e0] eqn:Hy;
    [|discriminate].
  apply float_of_int_sign in Hy; [|lia]. cbn [rbind].
  destruct Hx as [(mx & ex & ->)| ->], Hy as [(my & ey & ->)| ->];
    cbn [SFmul xorb]; try (intros [= <-]; lia).
  pose proof (binary_round_aux_sign false (Z.pos (mx * my)) (ex + ey)
                loc_Exact) as Hs.
  destruct (binary_round_aux 53 1024 false _ _ _) as [s'|s'| |s' m e];
    try discriminate; subst s'.
  - intros [= <-]. lia.
  - cbn [py_int]. intros [= <-]. apply Z.shiftl_nonneg. lia.
Qed.

Lemma length_py_range (a b : Z) : length (py_range a b) = Z.to_nat (b - a).
Proof. unfold py_range. now rewrite length_map, length_seq. Qed.


Lemma beam_search_calls_app (tr1 tr2 : list event) :
  beam_search_calls (tr1 ++ tr2) =
  (beam_search_calls tr1 + beam_search_calls tr2)%nat.
Proof. unfold beam_search_calls. now rewrite filter_app, length_app. Qed.

Lemma record_all_cons (r : option string * string * R)
    (rs : list (option string * string * R))
    (outs : gmap string string * gmap string R) :
  record_all (r :: rs) outs =
  record_all rs (record_prediction (fst (fst r)) (snd (fst r)) (snd r) outs).
Proof. reflexivity. Qed.

Lemma record_all_untouched (rs : list (option string * string * R)) :
  forall (outs : gmap string string * gmap string R) (m : string),
    (forall k l p, rs !! k <> Some (Some l, m, p)) ->
    fst (record_all rs outs) !! m = fst outs !! m /\
    snd (record_all rs outs) !! m = snd outs !! m.
Proof.
  induction rs as [|[[predicted m'] p'] rs IH]; intros outs m Hno;
    [split; reflexivity|].
  rewrite record_all_cons. simpl.
  destruct (IH (record_prediction predicted m' p' outs) m) as [IH1 IH2].
  { intros k. apply (Hno (S k)). }
  rewrite IH1, IH2. unfold record_prediction.
  destruct predicted as [l|]; [|split; reflexivity].
  destruct (truthy (Some l)); [|split; reflexivity].
  assert (m' <> m) by (intros ->; now apply (Hno 0%nat l p')).
  simpl. now rewrite !lookup_insert_ne.
Qed.

Lemma record_all_last (rs : list (option string * string * R)) :
  forall (outs : gmap string string * gmap string R) (j : nat)
         (l m : string) (p : R),
    rs !! j = Some (Some l, m, p) ->
    truthy (Some l) = true ->
    (forall k l' p', (j < k)%nat -> rs !! k <> Some (Some l', m, p')) ->
    fst (record_all rs outs) !! m = Some l /\
    snd (record_all rs outs) !! m = Some p.
Proof.
  induction rs as [|r rs IH]; intros outs j l m p Hj Hl Hlater;
    [discriminate|].
  rewrite record_all_cons.
  destruct j as [|j].
  - simpl in Hj. injection Hj as ->. cbn [fst snd].
    destruct (record_all_untouched rs
                (record_prediction (Some l) m p outs) m) as [E1 E2].
    { intros k l' p'. apply (Hlater (S k)). lia. }
    rewrite E1, E2. unfold record_prediction. rewrite Hl. simpl.
    now rewrite !lookup_insert_eq.
  - apply (IH _ j); [exact Hj|exact Hl|].
    intros k l' p' Hk. apply (Hlater (S k)). lia.
Qed.

Section DatasetEvaluator.

Variable libm_log : Q -> Z -> R.
Variable format_tokens : list string -> string.
Variable get_data_path : string -> string.

(** Line 130 comes first: if it raises, nothing else is done. *)
Lemma eval_bs_eq (test_set : Dataset) (vocab : Vocab) (model : Seq2Seq)
    (params : Params) (tr : list event) :
  eval_bs libm_log format_tokens get_data_path test_set vocab model params tr =
  match n_samples test_set params with
  | Raise e => (Raise e, tr)
  | Ok n =>
      let test_gen := generator test_set 1%nat vocab None (pointer params) in
      let iters := py_range 1 (n + 1) in
      let f := {| tar_name := get_data_path "results.tgz";
                  tar_mode := "w:gz" |} in
      if test_save_results params && truthy (model_path_prefix params)
      then eval_bs_loop libm_log format_tokens iters test_gen (Some f) model
             vocab params (∅, ∅) ((tr ++ [EvTarOpen f]) ++ [EvModelEval])
      else eval_bs_loop libm_log format_tokens iters test_gen None model
             vocab params (∅, ∅) (tr ++ [EvModelEval])
  end.
Proof.
  unfold eval_bs. cbv zeta. unfold bind at 1. unfold lift at 1.
  destruct (n_samples test_set params) as [n|e]; [|reflexivity].
  unfold open_result_file, tarfile_open, model_eval, bind, emit, ret.
  replace (if pointer params then true else false) with (pointer params)
    by now destruct (pointer params).
  destruct (test_save_results params && truthy (model_path_prefix params));
    reflexivity.
Qed.

Lemma eval_bs_eq_setup (test_set : Dataset) (vocab : Vocab) (model : Seq2Seq)
    (params : Params) (n : Z) (tr : list event) :
  n_samples test_set params = Ok n ->
  exists result_file,
    (result_file = None <->
     test_save_results params && truthy (model_path_prefix params) = false) /\
    eval_bs libm_log format_tokens get_data_path test_set vocab model params
    tr = eval_bs_loop libm_log format_tokens (py_range 1 (n + 1))
      (generator test_set 1%nat vocab None (pointer params)) result_file
      model vocab params (∅, ∅) (tr ++ setup_events get_data_path params).
Proof.
  intros Hn. rewrite eval_bs_eq, Hn. cbv zeta. unfold setup_events.
  destruct (test_save_results params && truthy (model_path_prefix params)).
  - eexists (Some _). split; [split; discriminate|].
    now rewrite <- app_assoc.
  - exists None. split; [split; reflexivity|]. reflexivity.
Qed.

(** A pass that returns has got its count from line 130. *)
Lemma eval_bs_ok_n_samples (test_set : Dataset) (vocab : Vocab)
    (model : Seq2Seq) (params : Params) (tr tr' : list event)
    (outs : gmap string string * gmap string R) :
  eval_bs libm_log format_tokens get_data_path test_set vocab model params tr
  = (Ok outs, tr') ->
  exists n, n_samples test_set params = Ok n.
Proof.
  rewrite eval_bs_eq.
  destruct (n_samples test_set params) as [n|e]; [eauto|discriminate].
Qed.

(** A result that [eval_bs_batch] returns under [details] carries a label,
    and the label is true in a condition. *)
Lemma eval_bs_batch_labelled (batch : Batch) (model : Seq2Seq) (vocab : Vocab)
    (pack_seq : bool) (beam_size min_out_len : nat) (max_out_len : option nat)
    (len_in_words best_only : bool) (tr tr' : list event)
    (predicted : option string) (mnem : string) (prob : R) :
  eval_bs_batch libm_log format_tokens batch model vocab pack_seq beam_size
    min_out_len max_out_len len_in_words best_only true tr
  = (Ok (predicted, mnem, prob), tr') ->
  exists l, predicted = Some l /\ truthy (Some l) = true.
Proof.
  rewrite eval_bs_batch_eq.
  destruct (length (examples batch) =? 1)%nat; [|discriminate].
  intros [= H _]. revert H. unfold after_beam_search.
  destruct (select_hypotheses libm_log _ _) as [[to_decode probability]|];
    cbn [rbind]; [|discriminate].
  rewrite decode_batch_output_eq. cbn [rbind].
  destruct (predicted_label format_tokens true _) as [pl|] eqn:Ep;
    cbn [rbind]; [|discriminate].
  destruct (mnemonic format_tokens true _) as [[m|]|]; cbn [rbind read_local];
    try discriminate.
  destruct probability as [pr|]; cbn [rbind read_local]; [|discriminate].
  intros [= <- _ _].
  exact (predicted_label_ok format_tokens true _ _ Ep).
Qed.

(** A run of the loop that returns has processed one batch per iteration,
    in the order of the generator, and recorded the results in that order. *)
Lemma eval_bs_loop_ok (model : Seq2Seq) (vocab : Vocab) (params : Params)
    (result_file : option TarFile) (iters : list Z) :
  forall (test_gen : list Batch) (outs outs' : gmap string string * gmap string R)
         (tr tr' : list event),
    eval_bs_loop libm_log format_tokens iters test_gen result_file model vocab
      params outs tr = (Ok outs', tr') ->
    exists rs,
      Forall2 (processed libm_log format_tokens model vocab params)
        (take (length iters) test_gen) rs /\
      length rs = length iters /\
      outs' = record_all rs outs /\
      beam_search_calls tr' = (beam_search_calls tr + length iters)%nat.
Proof.
  induction iters as [|it iters IH]; intros test_gen outs outs' tr tr' H.
  - injection H as <- <-. exists []. simpl.
    repeat split; [constructor|lia].
  - simpl in H. unfold bind, lift in H.
    destruct test_gen as [|batch test_gen]; [discriminate|]. simpl in H.
    destruct result_file as [f|]; [|discriminate]. simpl in H.
    change (is_not_None f) with true in H.
    destruct (eval_bs_batch _ _ _ _ _ _ _ _ _ _ _ _ tr)
      as [[[[predicted mnem] prob]|e] tr1] eqn:Eb; [|discriminate].
    pose proof Eb as Eb'. rewrite eval_bs_batch_eq in Eb'.
    destruct (length (examples batch) =? 1)%nat eqn:Hlen; [|discriminate].
    injection Eb' as Hres Htr.
    apply IH in H. destruct H as (rs & Hrs & Hlenrs & Houts & Hcalls).
    exists ((predicted, mnem, prob) :: rs). simpl. repeat split.
    + constructor; [|exact Hrs].
      intros tr0. rewrite eval_bs_batch_eq, Hlen, Hres. reflexivity.
    + now rewrite Hlenrs.
    + exact Houts.
    + rewrite Hcalls, <- Htr, beam_search_calls_app. simpl.
      unfold beam_search_calls at 2. simpl. lia.
Qed.


(** The loop over a first stretch of batches that all return. *)
Lemma eval_bs_loop_prefix (model : Seq2Seq) (vocab : Vocab) (params : Params)
    (f : TarFile) (bs : list Batch) (rs : list (option string * string * R)) :
  Forall2 (processed libm_log format_tokens model vocab params) bs rs ->
  forall (its iters : list Z) (test_gen : list Batch)
         (outs : gmap string string * gmap string R) (tr : list event),
    length its = length bs ->
    eval_bs_loop libm_log format_tokens (its ++ iters) (bs ++ test_gen) (Some f)
      model vocab params outs tr =
    eval_bs_loop libm_log format_tokens iters test_gen (Some f) model vocab
      params (record_all rs outs) (tr ++ batch_events params bs).
Proof.
  induction 1 as [|b r bs rs Hb _ IH]; intros its iters test_gen outs tr Hlen.
  - destruct its; [|discriminate]. simpl. now rewrite app_nil_r.
  - destruct its as [|it its]; [discriminate|].
    injection Hlen as Hlen.
    cbn [app eval_bs_loop]. unfold bind at 1. unfold lift at 1.
    cbn [py_next]. unfold bind at 1. unfold lift at 1. cbn [read_local].
    unfold bind at 1. change (is_not_None f) with true.
    rewrite (Hb tr). destruct r as [[predicted mnem] prob].
    rewrite (IH its iters test_gen _ _ Hlen).
    rewrite record_all_cons. cbn [batch_events map fst snd].
    now rewrite <- app_assoc.
Qed.



(** C9. When a pass of [eval_bs] returns, its mappings are the results of
    the processed examples recorded in processing order: for a mnemonic,
    both mappings hold the label and the score of the last example that
    returned it, whatever earlier examples with the same mnemonic had
    recorded, and nothing for a mnemonic no example returned; a result
    without a label leaves both mappings as they are. *)
Theorem eval_bs_last_write_wins (test_set : Dataset) (vocab : Vocab)
    (model : Seq2Seq) (params : Params) (tr tr' : list event)
    (outs : gmap string string * gmap string R) :
  eval_bs libm_log format_tokens get_data_path test_set vocab model params tr
  = (Ok outs, tr') ->
  exists (n : Z) (rs : list (option string * string * R)),
    n_samples test_set params = Ok n /\
    Forall2 (processed libm_log format_tokens model vocab params)
      (take (Z.to_nat n)
         (generator test_set 1%nat vocab None (pointer params))) rs /\
    outs = record_all rs (∅, ∅) /\
    (forall (j : nat) (l m : string) (p : R),
        rs !! j = Some (Some l, m, p) ->
        (forall (k : nat) (l' : string) (p' : R),
            (j < k)%nat -> rs !! k <> Some (Some l', m, p')) ->
        fst outs !! m = Some l /\ snd outs !! m = Some p) /\
    (forall m : string,
        (forall (k : nat) (l : string) (p : R), rs !! k <> Some (Some l, m, p)) ->
        fst outs !! m = None /\ snd outs !! m = None) /\
    (forall (m : string) (p : R) (o : gmap string string * gmap string R),
        record_prediction None m p o = o).
Proof.
  intros H.
  destruct (eval_bs_ok_n_samples _ _ _ _ _ _ _ H) as [n Hn].
  rewrite eval_bs_eq, Hn in H. cbv zeta in H.
  assert (Hloop : exists rf tr0,
             eval_bs_loop libm_log format_tokens (py_range 1 (n + 1))
               (generator test_set 1%nat vocab None (pointer params))
               rf model vocab params (∅, ∅) tr0 = (Ok outs, tr')).
  { destruct (test_save_results params && truthy (model_path_prefix params));
      eauto. }
  clear H. destruct Hloop as (rf & tr0 & H).
  apply eval_bs_loop_ok in H. destruct H as (rs & Hrs & _ & -> & _).
  rewrite length_py_range in Hrs.
  replace (n + 1 - 1) with n in Hrs by lia.
  exists n, rs. split; [exact Hn|].
  split; [exact Hrs|]. split; [reflexivity|]. split; [|split].
  - intros j l m p Hj Hlater. apply (record_all_last rs _ j); try assumption.
    destruct (Forall2_lookup_r _ _ _ _ _ Hrs Hj) as (batch & _ & Hb).
    destruct (eval_bs_batch_labelled _ _ _ _ _ _ _ _ _ _ _ _ _ _ (Hb []))
      as (l0 & [= <-] & Hl0).
    exact Hl0.
  - intros m Hno. destruct (record_all_untouched rs (∅, ∅) m Hno) as [-> ->].
    split; apply lookup_empty.
  - reflexivity.
Qed.

(** C10. [result_file] is bound only under the guard of line 132 and read
    for every example at line 147: when [test_save_results] or
    [model_path_prefix] is false in a condition and at least one sample is
    to be processed, the pass raises in its first iteration, before any
    decoding call and before anything is recorded, so the two mappings are
    never returned; nothing was opened either.  The exception is the
    [UnboundLocalError] of [result_file] (unless the generator has no batch
    to yield, which [next] reports first). *)
Theorem eval_bs_unbound_result_file (test_set : Dataset) (vocab : Vocab)
    (model : Seq2Seq) (params : Params) (n : Z) (tr : list event) :
  test_save_results params = false \/
    truthy (model_path_prefix params) = false ->
  n_samples test_set params = Ok n ->
  1 <= n ->
  exists e,
    eval_bs libm_log format_tokens get_data_path test_set vocab model params
      tr = (Raise e, tr ++ [EvModelEval]) /\
    (generator test_set 1%nat vocab None (pointer params) <> [] ->
     e = UnboundLocalError "result_file") /\
    (generator test_set 1%nat vocab None (pointer params) = [] ->
     e = StopIteration).
Proof.
  intros Hguard Hcount Hn. rewrite eval_bs_eq, Hcount. cbv zeta.
  replace (test_save_results params && truthy (model_path_prefix params))
    with false
    by (destruct Hguard as [-> | ->]; [reflexivity|now rewrite andb_false_r]).
  destruct (py_range 1 (n + 1)) as [|it iters] eqn:E.
  { apply (f_equal (@length Z)) in E. rewrite length_py_range in E.
    simpl in E. lia. }
  destruct (generator test_set 1%nat vocab None (pointer params))
    as [|batch test_gen].
  - exists StopIteration. split; [reflexivity|]. split; congruence.
  - exists (UnboundLocalError "result_file"). split; [reflexivity|].
    split; congruence.
Qed.

End DatasetEvaluator.

(** ** The worked scenario *)

(** The stand-in for the C library: its one rounded value, and its
    accuracy. *)

(** [math.log(0.01, 10)] is the double [-1.9999999999999996], two units
    in the last place above [-2.0]. *)
Lemma quotient_of_logs :
  double_value (SFdiv 53 1024 log_of_0_01 log_of_10)
  = Qmake (-9007199254740990) 4503599627370496.
Proof. vm_compute. reflexivity. Qed.

Lemma ln_10_gt_1 : (1 < ln 10)%R.
Proof.
  rewrite <- (ln_exp 1). apply ln_increasing; [apply exp_pos|].
  pose proof exp_le_3. lra.
Qed.

Lemma ln_1_plus (d : R) : (0 < d)%R -> (0 < ln (1 + d) < d)%R.
Proof.
  intros Hd. split.
  - rewrite <- ln_1. apply ln_increasing; lra.
  - rewrite <- (ln_exp d) at 2. apply ln_increasing; [lra|].
    apply exp_ineq1. lra.
Qed.

Lemma log10_double_0_01 :
  (-2 < log10 (Q2R double_0_01) < -2 + 3 / 2 ^ 57)%R.
Proof.
  pose proof ln_10_gt_1 as H10.
  assert (Hd : (0 < 3 / 2 ^ 57)%R) by lra.
  destruct (ln_1_plus _ Hd) as [Hlo Hhi].
  assert (Hx : log10 (Q2R double_0_01)
               = (-2 + ln (1 + 3 / 2 ^ 57) / ln 10)%R).
  { replace (Q2R double_0_01) with ((1 + 3 / 2 ^ 57) * / (10 * 10))%R
      by (unfold double_0_01, Q2R; simpl; lra).
    unfold log10. rewrite ln_mult, ln_Rinv, ln_mult by lra.
    field. lra. }
  rewrite Hx.
  set (t := ln (1 + 3 / 2 ^ 57)) in *. set (l := ln 10) in *.
  assert (Ht : (0 < t / l < 3 / 2 ^ 57)%R).
  { split.
    - apply Rdiv_lt_0_compat; lra.
    - apply (Rmult_lt_reg_r l); [lra|].
      unfold Rdiv at 1. rewrite Rmult_assoc, Rinv_l, Rmult_1_r by lra.
      assert (3 / 2 ^ 57 * 1 < 3 / 2 ^ 57 * l)%R
        by (apply Rmult_lt_compat_l; lra).
      lra. }
  lra.
Qed.

Lemma cpython_log_accurate : accurate cpython_log.
Proof.
  intros x Hx. unfold cpython_log.
  destruct (Qeq_bool x double_0_01 && (10 =? 10)) eqn:E.
  - apply andb_true_iff in E. destruct E as [E _].
    apply Qeq_bool_iff in E. rewrite (Qeq_eqR _ _ E).
    rewrite quotient_of_logs.
    pose proof log10_double_0_01 as [Hlo Hhi].
    set (l := log10 (Q2R double_0_01)) in *.
    replace (Q2R (Qmake (-9007199254740990) 4503599627370496))
      with (-2 + 1 / 2 ^ 51)%R by (unfold Q2R; cbn [Qnum Qden]; lra).
    rewrite Rabs_pos_eq by lra. rewrite (Rabs_left l) by lra.
    lra.
  - change (IZR 10) with 10%R. fold (log10 (Q2R x)).
    rewrite Rminus_diag, Rabs_R0.
    pose proof (Rabs_pos (log10 (Q2R x))) as Hpos.
    unfold Rdiv. apply Rmult_le_pos; [exact Hpos|].
    left. apply Rinv_0_lt_compat. lra.
Qed.


(** The decoder on [GAMMA RAY <EOS> GAMMA DEPTH]: an instance of the
    truncation theorem. *)
Lemma decode_batch_output_stops_at_EOS_demo :
  exists decoded_batch decoded_doc,
    decode_batch_output (PyList [[4; 5; 2; 4; 6]%nat]) demo_vocab
      (oov_dict demo_batch) = Ok decoded_batch /\
    decoded_batch !! 0%nat = Some decoded_doc /\
    truncated_at_EOS demo_vocab (oov_dict demo_batch) 0
      [4; 5; 2; 4; 6]%nat decoded_doc.
Proof.
  exact (decode_batch_output_stops_at_EOS (PyList [[4; 5; 2; 4; 6]%nat])
           demo_vocab (oov_dict demo_batch) 0 [4; 5; 2; 4; 6]%nat eq_refl).
Defined.

Example decode_batch_output_demo :
  decode_batch_output (PyList [[4; 5; 2; 4; 6]; [7; 9; 4]]%nat) demo_vocab
    (oov_dict demo_batch)
  = Ok [["GAMMA"; "RAY"; "<EOS>"]; ["<UNK>"; "<UNK>"; "GAMMA"]]%string /\
  decode_batch_output (PyList [[7; 9; 4]]%nat) demo_vocab (oov_dict demo_batch)
  = Ok [["FT"; "<UNK>"; "GAMMA"]]%string /\
  decode_batch_output (PyTensor demo_tensor) demo_vocab (oov_dict demo_batch)
  = Ok [["DEPTH"; "FT"]]%string.
Proof. repeat split; vm_compute; reflexivity. Qed.

(** The scenario of the specification: label [GAMMA RAY], mnemonic [FT]. *)
Lemma eval_bs_batch_label_and_mnemonic_demo :
  exists probability,
    eval_bs_batch cpython_log join_tokens demo_batch (model_returning
      [gamma_ray])
      demo_vocab true 4 1 None true true true [] =
    (Ok (Some "GAMMA RAY"%string, "FT"%string, probability),
     [beam_search_event demo_batch true 4 1 None true]).
Proof.
  exact (eval_bs_batch_label_and_mnemonic cpython_log join_tokens demo_batch
           (model_returning [gamma_ray]) demo_vocab true 4 1 None true []
           demo_example gamma_ray [] ["GAMMA"; "RAY"; "<EOS>"]%string
           "GAMMA"%string "RAY"%string ["<EOS>"%string] "FT"%string
           eq_refl eq_refl eq_refl eq_refl eq_refl eq_refl).
Defined.

(** C1 as stated fails: a batch of one example, decoded with [details],
    whose best hypothesis is the single word [GAMMA]; line 112 indexes the
    second token and the call raises [IndexError]. *)
Lemma eval_bs_batch_single_word_raises :
  length (examples demo_batch) = 1%nat /\
  eval_bs_batch cpython_log join_tokens demo_batch (model_returning
    [gamma_only])
    demo_vocab true 4 1 None true true true [] =
  (Raise IndexError, [beam_search_event demo_batch true 4 1 None true]).
Proof. split; vm_compute; reflexivity. Qed.



(** An average log-probability of 0 is a math domain error. *)
Example eval_bs_batch_domain_error_demo :
  eval_bs_batch cpython_log join_tokens demo_batch (model_returning
    [certain_gamma_ray])
    demo_vocab true 4 1 None true true true [] =
  (Raise ValueError, [beam_search_event demo_batch true 4 1 None true]).
Proof. vm_compute. reflexivity. Qed.

(** Two examples where one is required. *)
Example eval_bs_batch_two_examples_demo :
  eval_bs_batch cpython_log join_tokens
    {| examples := [demo_example; demo_example2];
       input_tensor := demo_tensor; input_lengths := [2; 2]%nat;
       ext_vocab_size := 8; oov_dict := oov_dict demo_batch |}
    (model_returning [gamma_ray]) demo_vocab true 4 1 None true true true [] =
  (Raise AssertionError, []).
Proof. vm_compute. reflexivity. Qed.

(** C6, the failing input: [details] unset on the scenario. *)
Example eval_bs_batch_without_details_demo :
  eval_bs_batch cpython_log join_tokens demo_batch (model_returning [gamma_ray])
    demo_vocab true 4 1 None true true false [] =
  (Raise (UnboundLocalError "mnem"),
   [beam_search_event demo_batch true 4 1 None true]).
Proof. vm_compute. reflexivity. Qed.

(** C7, the failing input: [best_only] unset on the scenario. *)
Example eval_bs_batch_all_hypotheses_demo :
  eval_bs_batch cpython_log join_tokens demo_batch
    (model_returning [gamma_ray; depth_gamma]) demo_vocab true 4 1 None true
    false true [] =
  (Raise (UnboundLocalError "probability"),
   [beam_search_event demo_batch true 4 1 None true]).
Proof. vm_compute. reflexivity. Qed.

(** Nothing sampled: two empty mappings, no decoding call. *)
Example eval_bs_ratio_0_demo :
  eval_bs cpython_log join_tokens data_path demo_dataset demo_vocab demo_model
    demo_params_ratio_0 [] = (Ok (∅, ∅), [EvModelEval]).
Proof. vm_compute. reflexivity. Qed.

(** Line 130 rounds as doubles do: [int(0.7 * 10)] is 7 although the
    double [0.7] is below 7/10, [int((1/3) * 3)] is 1 and [int(0.29 * 100)]
    is 28; an [int] ratio multiplies exactly, and a ratio that is not a
    finite number makes line 130 raise. *)
Example n_samples_demo :
  n_samples (dataset_of_size 10) (params_with_ratio (PyFloat double_0_7))
  = Ok 7 /\
  Qfloor (double_value double_0_7 * 10) = 6 /\
  n_samples (dataset_of_size 3) (params_with_ratio (PyFloat double_third))
  = Ok 1 /\
  n_samples (dataset_of_size 100) (params_with_ratio (PyFloat double_0_29))
  = Ok 28 /\
  n_samples (dataset_of_size 3) (params_with_ratio (PyInt 1)) = Ok 3 /\
  n_samples (dataset_of_size 3) (params_with_ratio (PyFloat S754_nan))
  = Raise ValueError /\
  n_samples (dataset_of_size 3)
    (params_with_ratio (PyFloat (S754_infinity false)))
  = Raise OverflowError.
Proof. repeat split; vm_compute; reflexivity. Qed.

(** With a ratio of 0.7 on ten pairs a pass makes seven decoding calls. *)
Example eval_bs_seven_of_ten_demo :
  beam_search_calls
    (snd (eval_bs cpython_log join_tokens data_path (dataset_of_size 10)
            demo_vocab demo_model (params_with_ratio (PyFloat double_0_7))
            []))
  = 7%nat.
Proof. vm_compute. reflexivity. Qed.


(** Results not saved: the pass stops at the first example. *)
Lemma eval_bs_unbound_result_file_demo :
  eval_bs cpython_log join_tokens data_path demo_dataset demo_vocab demo_model
    demo_params_no_save [] =
  (Raise (UnboundLocalError "result_file"), [EvModelEval]).
Proof.
  destruct (eval_bs_unbound_result_file cpython_log join_tokens data_path
              demo_dataset demo_vocab demo_model demo_params_no_save 2 [])
    as (e & Hrun & Hname & _).
  - left. reflexivity.
  - vm_compute. reflexivity.
  - lia.
  - rewrite Hrun, Hname; [reflexivity|discriminate].
Defined.

(** Both examples of the dataset have the mnemonic [FT]: the mappings hold
    what the second one returned. *)
Lemma eval_bs_last_write_wins_demo :
  exists outs tr',
    eval_bs cpython_log join_tokens data_path demo_dataset demo_vocab demo_model
      demo_params [] = (Ok outs, tr') /\
    fst outs !! "FT"%string = Some "DEPTH GAMMA"%string /\
    snd outs !! "FT"%string
    = Some (cpython_log (- avg_log_prob depth_gamma) 10) /\
    fst outs !! "GAMMA"%string = None.
Proof.
  assert (Hrun : { outs : gmap string string * gmap string R &
                   { tr' : list event |
                     eval_bs cpython_log join_tokens data_path demo_dataset
                       demo_vocab
                       demo_model demo_params [] = (Ok outs, tr') } }).
  { eexists. eexists. vm_compute. reflexivity. }
  destruct Hrun as (outs & tr' & Hrun).
  exists outs, tr'. split; [exact Hrun|].
  destruct (eval_bs_last_write_wins cpython_log join_tokens data_path
              demo_dataset demo_vocab demo_model demo_params [] tr' outs Hrun)
    as (n & rs & Hn & Hrs & _ & Hlast & Hnone & _).
  assert (Hn2 : n = 2) by (vm_compute in Hn; congruence).
  subst n.
  assert (Hrs' : rs = [ (Some "GAMMA RAY"%string, "FT"%string,
                          cpython_log (- avg_log_prob gamma_ray) 10);
                        (Some "DEPTH GAMMA"%string, "FT"%string,
                          cpython_log (- avg_log_prob depth_gamma) 10) ]).
  { change (take _ _) with [demo_batch; demo_batch2] in Hrs.
    inversion Hrs as [|b1 r1 bs1 rs1 H1 Hrs1]; subst.
    inversion Hrs1 as [|b2 r2 bs2 rs2 H2 Hrs2]; subst.
    inversion Hrs2; subst.
    specialize (H1 []). specialize (H2 []).
    rewrite eval_bs_batch_eq in H1, H2.
    change (length (examples demo_batch) =? 1)%nat with true in H1.
    change (length (examples demo_batch2) =? 1)%nat with true in H2.
    cbv iota in H1, H2.
    change (hypotheses_of demo_model demo_batch _ _ _ _ _)
      with [gamma_ray] in H1.
    change (hypotheses_of demo_model demo_batch2 _ _ _ _ _)
      with [depth_gamma] in H2.
    rewrite (after_beam_search_ok cpython_log join_tokens demo_batch demo_vocab
               demo_example gamma_ray [] ["GAMMA"; "RAY"; "<EOS>"]%string
               "GAMMA"%string "RAY"%string ["<EOS>"%string] "FT"%string
               eq_refl eq_refl eq_refl eq_refl eq_refl) in H1.
    rewrite (after_beam_search_ok cpython_log join_tokens demo_batch2 demo_vocab
               demo_example2 depth_gamma [] ["DEPTH"; "GAMMA"; "<EOS>"]%string
               "DEPTH"%string "GAMMA"%string ["<EOS>"%string] "FT"%string
               eq_refl eq_refl eq_refl eq_refl eq_refl) in H2.
    injection H1 as <-. injection H2 as <-. reflexivity. }
  subst rs.
  destruct (Hlast 1%nat "DEPTH GAMMA"%string "FT"%string _ eq_refl)
    as [Hlabel Hscore].
  { intros k l' p' Hk. destruct k as [|[|k]]; [lia|lia|discriminate]. }
  split; [exact Hlabel|]. split; [exact Hscore|].
  apply Hnone. intros k l p.
  destruct k as [|[|k]]; simpl; intros [= _ Hm _]; discriminate.
Defined.

(** * Further properties of the decoder *)

Lemma decode_batch_output_lookup (decoded_tokens : DecodedTokens)
    (vocab : Vocab) (oov_dict : OOVDict) (i : nat) (doc : list nat) :
  as_docs decoded_tokens !! i = Some doc ->
  exists decoded_batch,
    decode_batch_output decoded_tokens vocab oov_dict = Ok decoded_batch /\
    decoded_batch !! i
    = Some (map (resolved vocab oov_dict i) (upto_eos (EOS vocab) doc)).
Proof.
  intros Hdoc. rewrite decode_batch_output_eq. eexists.
  split; [reflexivity|]. rewrite list_lookup_imap, Hdoc. reflexivity.
Qed.

Lemma resolved_base (vocab : Vocab) (oov_dict : OOVDict) (i w : nat)
    (s : string) :
  index2word vocab !! w = Some s -> resolved vocab oov_dict i w = s.
Proof.
  intros Hw. unfold resolved, resolve_word, vocab_getitem.
  pose proof (lookup_lt_Some _ _ _ Hw) as Hlt.
  replace (vocab_len vocab <=? w)%nat with false
    by (symmetry; apply Nat.leb_gt; exact Hlt).
  now rewrite Hw.
Qed.

Lemma resolved_oov_agree (vocab : Vocab) (oov1 oov2 : OOVDict) (i w : nat) :
  ((vocab_len vocab <= w)%nat ->
   oov_index2word oov1 !! (i, w) = oov_index2word oov2 !! (i, w)) ->
  resolved vocab oov1 i w = resolved vocab oov2 i w.
Proof.
  intros Hagree. unfold resolved, resolve_word, dict_get.
  destruct (vocab_len vocab <=? w)%nat eqn:E; [|reflexivity].
  apply Nat.leb_le in E. now rewrite (Hagree E).
Qed.

Lemma upto_eos_app (eos : nat) (doc extra : list nat) :
  upto_eos eos (doc ++ extra) =
  if bool_decide (eos ∈ doc) then upto_eos eos doc
  else doc ++ upto_eos eos extra.
Proof.
  induction doc as [|w doc IH].
  - case_bool_decide as Hin; [|reflexivity]. now apply elem_of_nil in Hin.
  - cbn [app upto_eos]. destruct (w =? eos)%nat eqn:E.
    + apply Nat.eqb_eq in E. subst w.
      rewrite (bool_decide_eq_true_2 (eos ∈ eos :: doc))
        by (apply elem_of_cons; auto).
      reflexivity.
    + apply Nat.eqb_neq in E. rewrite IH.
      destruct (decide (eos ∈ doc)) as [Hin|Hin].
      * rewrite (bool_decide_eq_true_2 _ Hin).
        rewrite (bool_decide_eq_true_2 (eos ∈ w :: doc))
          by (apply elem_of_cons; auto).
        reflexivity.
      * rewrite (bool_decide_eq_false_2 _ Hin).
        rewrite (bool_decide_eq_false_2 (eos ∈ w :: doc)); [reflexivity|].
        rewrite elem_of_cons. intros [?|?]; [congruence|contradiction].
Qed.

Lemma length_upto_eos (eos : nat) (doc : list nat) :
  (length (upto_eos eos doc) <= length doc)%nat.
Proof.
  induction doc as [|w doc IH]; simpl; [lia|].
  destruct (w =? eos)%nat; simpl; lia.
Qed.

(** X1. Round trip through the base vocabulary: when [doc] holds the
    indices of [words] in the vocabulary, the decoder returns [words] for
    it, cut after the first end-of-sequence index if there is one, and the
    OOV dictionary plays no part. *)
Theorem decode_batch_output_round_trip
    (decoded_tokens : DecodedTokens) (vocab : Vocab) (oov_dict : OOVDict)
    (i : nat) (doc : list nat) (words : list string) :
  as_docs decoded_tokens !! i = Some doc ->
  Forall2 (fun w s => index2word vocab !! w = Some s) doc words ->
  exists decoded_batch,
    decode_batch_output decoded_tokens vocab oov_dict = Ok decoded_batch /\
    ((forall k : nat, doc !! k <> Some (EOS vocab)) ->
     decoded_batch !! i = Some words) /\
    (forall k : nat,
        doc !! k = Some (EOS vocab) ->
        (forall j : nat, (j < k)%nat -> doc !! j <> Some (EOS vocab)) ->
        decoded_batch !! i = Some (take (S k) words)).
Proof.
  intros Hdoc Hwords.
  destruct (decode_batch_output_lookup decoded_tokens vocab oov_dict i doc Hdoc)
    as (decoded_batch & Hdec & Hi).
  assert (Hmap : map (resolved vocab oov_dict i) doc = words).
  { clear Hdoc Hi. induction Hwords as [|w s doc words Hw _ IH];
      [reflexivity|].
    simpl. now rewrite (resolved_base vocab oov_dict i w s Hw), IH. }
  exists decoded_batch. split; [exact Hdec|]. split.
  - intros Hno. now rewrite Hi, (upto_eos_absent _ _ Hno), Hmap.
  - intros k Hk Hfirst.
    rewrite Hi, (upto_eos_first _ _ k Hk Hfirst).
    change map with (@fmap list _). rewrite fmap_take.
    change (@fmap list _) with map. now rewrite Hmap.
Qed.

Lemma decode_batch_output_round_trip_demo :
  exists decoded_batch,
    decode_batch_output (PyList [[6; 4; 2; 5]%nat]) demo_vocab
      (oov_dict demo_batch) = Ok decoded_batch /\
    decoded_batch !! 0%nat = Some ["DEPTH"; "GAMMA"; "<EOS>"]%string.
Proof.
  destruct (decode_batch_output_round_trip (PyList [[6; 4; 2; 5]%nat])
              demo_vocab (oov_dict demo_batch) 0 [6; 4; 2; 5]%nat
              ["DEPTH"; "GAMMA"; "<EOS>"; "RAY"]%string eq_refl)
    as (decoded_batch & Hdec & _ & Hcut).
  - repeat constructor.
  - exists decoded_batch. split; [exact Hdec|].
    apply (Hcut 2%nat); [reflexivity|].
    intros [|[|j]] Hj; [discriminate|discriminate|lia].
Defined.

(** X2. No leak between examples: the strings decoded for example [i]
    depend on the OOV dictionary only through its entries [(i, w)] with [w]
    outside the base vocabulary; two dictionaries that agree on those give
    the same strings for example [i]. *)
Theorem decode_batch_output_oov_isolation
    (decoded_tokens : DecodedTokens) (vocab : Vocab) (oov1 oov2 : OOVDict)
    (i : nat) :
  (forall w : nat,
      (vocab_len vocab <= w)%nat ->
      oov_index2word oov1 !! (i, w) = oov_index2word oov2 !! (i, w)) ->
  exists decoded1 decoded2,
    decode_batch_output decoded_tokens vocab oov1 = Ok decoded1 /\
    decode_batch_output decoded_tokens vocab oov2 = Ok decoded2 /\
    decoded1 !! i = decoded2 !! i.
Proof.
  intros Hagree. rewrite !decode_batch_output_eq.
  do 2 eexists. split; [reflexivity|]. split; [reflexivity|].
  rewrite !list_lookup_imap.
  destruct (as_docs decoded_tokens !! i) as [doc|]; [|reflexivity].
  simpl. f_equal. apply map_ext. intros w.
  apply resolved_oov_agree. apply Hagree.
Qed.

Lemma decode_batch_output_oov_isolation_demo :
  exists decoded1 decoded2,
    decode_batch_output (PyList [[7; 4]; [7; 5]]%nat) demo_vocab
      (oov_dict demo_batch) = Ok decoded1 /\
    decode_batch_output (PyList [[7; 4]; [7; 5]]%nat) demo_vocab
      {| oov_index2word :=
           <[(1%nat, 7%nat) := "M"%string]>
             (oov_index2word (oov_dict demo_batch)) |} = Ok decoded2 /\
    decoded1 !! 0%nat = decoded2 !! 0%nat.
Proof.
  apply (decode_batch_output_oov_isolation (PyList [[7; 4]; [7; 5]]%nat)
           demo_vocab (oov_dict demo_batch) _ 0).
  intros w _. simpl. rewrite lookup_insert_ne; [reflexivity|congruence].
Defined.

(** X3. What follows the terminator is discarded, and documents are
    decoded independently: extending document [i] changes no other
    document; it changes nothing at all when document [i] already holds
    the end-of-sequence index; otherwise its strings are followed by those
    of the extension. *)
Theorem decode_batch_output_extension
    (docs : list (list nat)) (vocab : Vocab) (oov_dict : OOVDict)
    (i : nat) (doc extra : list nat) :
  docs !! i = Some doc ->
  exists decoded decoded',
    decode_batch_output (PyList docs) vocab oov_dict = Ok decoded /\
    decode_batch_output (PyList (<[i := doc ++ extra]> docs)) vocab oov_dict
    = Ok decoded' /\
    (forall j : nat, j <> i -> decoded' !! j = decoded !! j) /\
    (EOS vocab ∈ doc -> decoded' = decoded) /\
    (EOS vocab ∉ doc ->
     exists d e,
       decoded !! i = Some d /\
       decode_doc_loop vocab oov_dict i extra [] = Ok e /\
       decoded' !! i = Some (d ++ e)).
Proof.
  intros Hdoc. rewrite !decode_batch_output_eq. simpl as_docs.
  do 2 eexists. split; [reflexivity|]. split; [reflexivity|].
  pose proof (lookup_lt_Some _ _ _ Hdoc) as Hlt.
  assert (Hother : forall j : nat, j <> i ->
            imap (fun i0 d => map (resolved vocab oov_dict i0)
                                (upto_eos (EOS vocab) d))
              (<[i := doc ++ extra]> docs) !! j =
            imap (fun i0 d => map (resolved vocab oov_dict i0)
                                (upto_eos (EOS vocab) d)) docs !! j).
  { intros j Hj. rewrite !list_lookup_imap.
    now rewrite list_lookup_insert_ne by congruence. }
  assert (Hi : imap (fun i0 d => map (resolved vocab oov_dict i0)
                                   (upto_eos (EOS vocab) d))
                 (<[i := doc ++ extra]> docs) !! i =
               Some (map (resolved vocab oov_dict i)
                       (upto_eos (EOS vocab) (doc ++ extra)))).
  { rewrite list_lookup_imap, list_lookup_insert_eq by exact Hlt.
    reflexivity. }
  split; [exact Hother|]. split.
  - intros Hin. apply list_eq. intros j.
    destruct (decide (j = i)) as [->|Hj]; [|now apply Hother].
    rewrite Hi, list_lookup_imap, Hdoc, upto_eos_app.
    now rewrite bool_decide_eq_true_2 by exact Hin.
  - intros Hnotin.
    exists (map (resolved vocab oov_dict i) doc),
           (map (resolved vocab oov_dict i) (upto_eos (EOS vocab) extra)).
    split; [|split].
    + rewrite list_lookup_imap, Hdoc. simpl. do 2 f_equal.
      apply upto_eos_absent. intros k Hk. apply Hnotin.
      apply list_elem_of_lookup. eauto.
    + apply decode_doc_loop_eq.
    + rewrite Hi, upto_eos_app.
      rewrite bool_decide_eq_false_2 by exact Hnotin.
      now rewrite map_app.
Qed.

Lemma decode_batch_output_extension_demo :
  exists decoded,
    decode_batch_output (PyList [[4; 2]; [5]]%nat) demo_vocab
      (oov_dict demo_batch) = Ok decoded /\
    decode_batch_output (PyList [[4; 2; 6; 6]; [5]]%nat) demo_vocab
      (oov_dict demo_batch) = Ok decoded.
Proof.
  destruct (decode_batch_output_extension [[4; 2]; [5]]%nat demo_vocab
              (oov_dict demo_batch) 0 [4; 2]%nat [6; 6]%nat eq_refl)
    as (decoded & decoded' & Hdec & Hdec' & _ & Hsame & _).
  exists decoded. split; [exact Hdec|].
  rewrite <- Hsame; [exact Hdec'|].
  apply list_elem_of_In. simpl. auto.
Defined.

(** X4. The tensor path keeps the (time step, batch index) to token
    mapping: a tensor of [dim0] time steps and [dim1] examples is decoded
    into [dim1] documents of at most [dim0] strings each, and the string at
    position [s] of document [b] is the resolution, for example [b], of the
    tensor's item at time step [s] and column [b]. *)
Theorem decode_batch_output_tensor (t : Tensor) (vocab : Vocab)
    (oov_dict : OOVDict) :
  exists decoded_batch,
    decode_batch_output (PyTensor t) vocab oov_dict = Ok decoded_batch /\
    length decoded_batch = dim1 t /\
    forall (b : nat) (decoded_doc : list string),
      decoded_batch !! b = Some decoded_doc ->
      (length decoded_doc <= dim0 t)%nat /\
      ((0 < dim0 t)%nat -> decoded_doc <> []) /\
      forall (s : nat) (word : string),
        decoded_doc !! s = Some word ->
        resolve_word vocab oov_dict b (item t s b) = Ok word.
Proof.
  rewrite decode_batch_output_eq. eexists. split; [reflexivity|].
  simpl as_docs. unfold transpose_tolist. split.
  - now rewrite length_imap, length_map, length_seq.
  - intros b decoded_doc Hb. rewrite list_lookup_imap in Hb.
    rewrite list_lookup_fmap in Hb.
    destruct (seq 0 (dim1 t) !! b) as [b'|] eqn:Hseq; [|discriminate].
    apply lookup_seq in Hseq. destruct Hseq as [-> _].
    simpl in Hb. injection Hb as <-.
    set (col := map (fun s => item t s b) (seq 0 (dim0 t))).
    assert (Hcol : length col = dim0 t)
      by (unfold col; now rewrite length_map, length_seq).
    split; [|split].
    + rewrite length_map. pose proof (length_upto_eos (EOS vocab) col). lia.
    + intros Hpos Hnil. apply (f_equal (@length string)) in Hnil.
      rewrite length_map in Hnil. destruct col as [|w col]; simpl in *; [lia|].
      discriminate.
    + intros s word Hs. rewrite list_lookup_fmap in Hs.
      destruct (upto_eos (EOS vocab) col !! s) as [w|] eqn:Hw; [|discriminate].
      simpl in Hs. injection Hs as <-.
      apply upto_eos_lookup in Hw. unfold col in Hw.
      rewrite list_lookup_fmap in Hw.
      destruct (seq 0 (dim0 t) !! s) as [s'|] eqn:Hseq; [|discriminate].
      apply lookup_seq in Hseq. destruct Hseq as [-> _].
      simpl in Hw. injection Hw as <-. apply resolve_word_ok.
Qed.

(** * Further properties of [eval_bs_batch] *)

Lemma py_split_token (w : string) :
  truthy_str w = true -> no_space w = true -> py_split w = [w].
Proof.
  induction w as [|c w IH]; [discriminate|].
  intros _ Hns. simpl in Hns. apply andb_true_iff in Hns.
  destruct Hns as [Hc Hw]. apply negb_true_iff in Hc.
  simpl. rewrite Hc. destruct w as [|c' w']; [reflexivity|].
  pose proof Hw as Hw'. simpl in Hw'. apply andb_true_iff in Hw'.
  destruct Hw' as [Hc' _]. apply negb_true_iff in Hc'. rewrite Hc'.
  now rewrite (IH eq_refl Hw).
Qed.

Lemma py_split_word_space (w s : string) :
  truthy_str w = true -> no_space w = true ->
  py_split (w +:+ String " " s) = w :: py_split s.
Proof.
  induction w as [|c w IH]; [discriminate|].
  intros _ Hns. simpl in Hns. apply andb_true_iff in Hns.
  destruct Hns as [Hc Hw]. apply negb_true_iff in Hc.
  change (String c w +:+ String " " s) with (String c (w +:+ String " " s)).
  cbn [py_split]. rewrite Hc. destruct w as [|c' w'].
  - change ("" +:+ String " " s)%string with (String " " s).
    change (is_space " ") with true. cbv iota. reflexivity.
  - pose proof Hw as Hw'. simpl in Hw'. apply andb_true_iff in Hw'.
    destruct Hw' as [Hc' _]. apply negb_true_iff in Hc'.
    change (String c' w' +:+ String " " s)
      with (String c' (w' +:+ String " " s)) in *.
    cbv iota. rewrite Hc'. now rewrite (IH eq_refl Hw).
Qed.

Lemma log10_neg_iff (x : R) : (0 < x)%R -> (log10 x < 0)%R <-> (x < 1)%R.
Proof.
  intros Hx. unfold log10.
  assert (H10 : (0 < ln 10)%R) by (rewrite <- ln_1; apply ln_increasing; lra).
  split.
  - intros H. apply ln_lt_inv; [exact Hx|lra|]. rewrite ln_1.
    apply (Rmult_lt_compat_r (ln 10)) in H; [|exact H10].
    unfold Rdiv in H. rewrite Rmult_assoc, Rinv_l, Rmult_1_r, Rmult_0_l in H
      by lra.
    exact H.
  - intros H. apply (ln_increasing x 1 Hx) in H. rewrite ln_1 in H.
    unfold Rdiv. replace 0%R with (0 * / ln 10)%R by lra.
    apply Rmult_lt_compat_r; [apply Rinv_0_lt_compat; exact H10|exact H].
Qed.

Lemma log10_increasing (x y : R) :
  (0 < x)%R -> (x < y)%R -> (log10 x < log10 y)%R.
Proof.
  intros Hx Hxy. unfold log10, Rdiv.
  assert (H10 : (0 < ln 10)%R) by (rewrite <- ln_1; apply ln_increasing; lra).
  apply Rmult_lt_compat_r; [apply Rinv_0_lt_compat; exact H10|].
  now apply ln_increasing.
Qed.

Lemma log10_1 : log10 1 = 0%R.
Proof. unfold log10. rewrite ln_1. lra. Qed.

Lemma log10_sign (x : R) :
  (0 < x)%R ->
  ((log10 x < 0)%R <-> (x < 1)%R) /\
  (log10 x = 0%R <-> x = 1%R) /\
  ((0 < log10 x)%R <-> (1 < x)%R).
Proof.
  intros Hx. pose proof (log10_neg_iff x Hx) as Hneg.
  assert (Hpos : (1 < x)%R -> (0 < log10 x)%R).
  { intros H. rewrite <- log10_1. apply log10_increasing; lra. }
  split; [exact Hneg|]. split; split.
  - intros H0. destruct (Rtotal_order x 1) as [Hl|[He|Hg]]; [|exact He|].
    + apply Hneg in Hl. lra.
    + apply Hpos in Hg. lra.
  - intros ->. apply log10_1.
  - intros H0. destruct (Rtotal_order x 1) as [Hl|[He|Hg]]; [| |lra].
    + apply Hneg in Hl. lra.
    + rewrite He, log10_1 in H0. lra.
  - exact Hpos.
Qed.

(** An accurate logarithm has the sign of the exact one. *)
Lemma accurate_sign (libm_log : Q -> Z -> R) (x : Q) :
  accurate libm_log ->
  (0 < x)%Q ->
  ((libm_log x 10%Z < 0)%R <-> (log10 (Q2R x) < 0)%R) /\
  (libm_log x 10%Z = 0%R <-> log10 (Q2R x) = 0%R) /\
  ((0 < libm_log x 10%Z)%R <-> (0 < log10 (Q2R x))%R).
Proof.
  intros Hacc Hx. specialize (Hacc x Hx).
  set (v := libm_log x 10%Z) in *. set (l := log10 (Q2R x)) in *.
  assert (Hhalf : (Rabs l / 2 ^ 50 <= Rabs l / 2)%R).
  { unfold Rdiv. apply Rmult_le_compat_l; [apply Rabs_pos|].
    apply Rinv_le_contravar; lra. }
  assert (Hclose : (Rabs (v - l) <= Rabs l / 2)%R) by lra.
  clear Hacc Hhalf. revert Hclose. unfold Rabs.
  destruct (Rcase_abs (v - l)), (Rcase_abs l); intros Hclose;
    repeat split; intros; lra.
Qed.

Section BatchEvaluatorFurther.

Variable libm_log : Q -> Z -> R.
Hypothesis libm_log_accurate : accurate libm_log.
Variable format_tokens : list string -> string.

(** What a returned result tells about the call. *)
Lemma after_beam_search_inv (batch : Batch) (vocab : Vocab)
    (best_only details : bool) (hypotheses : list BeamHypothesis)
    (predicted : option string) (mnem : string) (pr : R) :
  after_beam_search libm_log format_tokens batch vocab best_only details
  hypotheses = Ok (predicted, mnem, pr) ->
  best_only = true /\ details = true /\
  exists h hs decoded_doc w0 w1 rest example exs,
    hypotheses = h :: hs /\
    (avg_log_prob h < 0)%Q /\
    decode_batch_output (PyList [tokens h]) vocab (oov_dict batch)
      = Ok [decoded_doc] /\
    py_split (format_tokens decoded_doc) = w0 :: w1 :: rest /\
    examples batch = example :: exs /\
    last (py_split (format_tokens (src example))) = Some mnem /\
    predicted = Some (w0 +:+ " " +:+ w1) /\
    pr = libm_log (- avg_log_prob h) 10.
Proof.
  intros H.
  destruct best_only.
  2:{ destruct (after_beam_search_all_hypotheses libm_log format_tokens batch
                  vocab details hypotheses) as (e & He & _). congruence. }
  destruct details.
  2:{ pose proof (after_beam_search_without_details libm_log format_tokens
                    batch vocab true hypotheses) as Hd.
      destruct (select_hypotheses libm_log true hypotheses); congruence. }
  split; [reflexivity|]. split; [reflexivity|].
  unfold after_beam_search in H.
  destruct hypotheses as [|h hs].
  { unfold select_hypotheses in H. rewrite py_getitem_0 in H. discriminate. }
  rewrite select_hypotheses_best in H.
  destruct (Qlt_le_dec (avg_log_prob h) 0) as [Havg|Havg].
  2:{ rewrite math_log_domain in H; [discriminate|].
      apply (Qopp_le_compat 0 (avg_log_prob h)) in Havg. exact Havg. }
  rewrite math_log_positive in H
    by exact (Qopp_lt_compat (avg_log_prob h) 0 Havg).
  cbn [rbind] in H.
  destruct (decode_batch_output_lookup (PyList [tokens h]) vocab
              (oov_dict batch) 0 (tokens h) eq_refl) as (db & Hdb & _).
  pose proof Hdb as Hdb'. rewrite decode_batch_output_eq in Hdb'.
  injection Hdb' as <-. cbn [as_docs imap] in Hdb.
  rewrite Hdb in H. cbn [rbind] in H.
  unfold predicted_label, mnemonic in H. rewrite !py_getitem_0 in H.
  cbn [rbind] in H.
  destruct (py_split (format_tokens _)) as [|w0 [|w1 rest]] eqn:Hsplit;
    rewrite ?py_getitem_1 in H; cbn [rbind] in H; try discriminate.
  destruct (examples batch) as [|example exs] eqn:Hex; cbn [rbind] in H;
    [discriminate|].
  rewrite py_getitem_last in H.
  destruct (last (py_split (format_tokens (src example)))) as [m|] eqn:Hlast;
    cbn [rbind read_local] in H; [|discriminate].
  injection H as <- <- <-.
  exists h, hs. do 6 eexists.
  repeat split; try reflexivity; try eassumption.
Qed.

(** X5. [eval_bs_batch] returns in one situation only: one example,
    [best_only] and [details] both set, a top hypothesis of negative
    average log-probability whose detokenized decoding has at least two
    tokens, and a detokenized source with at least one.  Then it has made
    one decoding call and returns the two-token label, the last source
    token and the value of [math.log(- avg_log_prob, 10)]; in every other
    situation it raises. *)
Theorem eval_bs_batch_returns_iff
    (batch : Batch) (model : Seq2Seq) (vocab : Vocab) (pack_seq : bool)
    (beam_size min_out_len : nat) (max_out_len : option nat)
    (len_in_words best_only details : bool) (tr tr' : list event)
    (predicted : option string) (mnem : string) (pr : R) :
  eval_bs_batch libm_log format_tokens batch model vocab pack_seq beam_size
    min_out_len max_out_len len_in_words best_only details tr
  = (Ok (predicted, mnem, pr), tr')
  <->
  best_only = true /\ details = true /\
  tr' = tr ++ [beam_search_event batch pack_seq beam_size min_out_len
                 max_out_len len_in_words] /\
  exists example h hs decoded_doc w0 w1 rest,
    examples batch = [example] /\
    hypotheses_of model batch pack_seq beam_size min_out_len max_out_len
      len_in_words = h :: hs /\
    (avg_log_prob h < 0)%Q /\
    decode_batch_output (PyList [tokens h]) vocab (oov_dict batch)
      = Ok [decoded_doc] /\
    py_split (format_tokens decoded_doc) = w0 :: w1 :: rest /\
    last (py_split (format_tokens (src example))) = Some mnem /\
    predicted = Some (w0 +:+ " " +:+ w1) /\
    pr = libm_log (- avg_log_prob h) 10.
Proof.
  rewrite eval_bs_batch_eq. split.
  - destruct (length (examples batch) =? 1)%nat eqn:Hlen; [|discriminate].
    apply Nat.eqb_eq in Hlen. intros [= H <-].
    apply after_beam_search_inv in H.
    destruct H as (-> & -> & h & hs & dd & w0 & w1 & rest & example & exs
                   & Hhyp & Havg & Hdec & Hsplit & Hex & Hlast & -> & ->).
    rewrite Hex in Hlen. destruct exs; [|discriminate].
    repeat split. exists example, h, hs, dd, w0, w1, rest.
    repeat split; assumption.
  - intros (-> & -> & -> & example & h & hs & dd & w0 & w1 & rest
            & Hex & Hhyp & Havg & Hdec & Hsplit & Hlast & -> & ->).
    rewrite Hex. simpl. rewrite Hhyp.
    now rewrite (after_beam_search_ok libm_log format_tokens batch vocab
                   example h hs dd w0 w1 rest mnem Hex Havg Hdec Hsplit Hlast).
Qed.

(** X6. No hypothesis from the beam search: for a batch of one example the
    call raises right after the decoding call, [IndexError] when
    [best_only] (line 104) or [details] (line 111) is set, and the
    [UnboundLocalError] of [mnem] when neither is. *)
Theorem eval_bs_batch_no_hypothesis
    (batch : Batch) (model : Seq2Seq) (vocab : Vocab) (pack_seq : bool)
    (beam_size min_out_len : nat) (max_out_len : option nat)
    (len_in_words best_only details : bool) (tr : list event) :
  length (examples batch) = 1%nat ->
  hypotheses_of model batch pack_seq beam_size min_out_len max_out_len
    len_in_words = [] ->
  eval_bs_batch libm_log format_tokens batch model vocab pack_seq beam_size
    min_out_len max_out_len len_in_words best_only details tr
  = (Raise (if best_only || details then IndexError
            else UnboundLocalError "mnem"),
     tr ++ [beam_search_event batch pack_seq beam_size min_out_len
              max_out_len len_in_words]).
Proof.
  intros Hlen Hhyp. rewrite eval_bs_batch_eq, Hlen, Hhyp. simpl.
  destruct best_only, details; reflexivity.
Qed.

(** X7. A top hypothesis whose average log-probability is not negative
    (zero or positive) makes a [best_only] call on one example raise the
    math domain error, whatever [details] is and whatever the hypothesis
    decodes to: the score is computed before anything is decoded. *)
Theorem eval_bs_batch_nonnegative_score
    (batch : Batch) (model : Seq2Seq) (vocab : Vocab) (pack_seq : bool)
    (beam_size min_out_len : nat) (max_out_len : option nat)
    (len_in_words details : bool) (tr : list event)
    (h : BeamHypothesis) (hs : list BeamHypothesis) :
  length (examples batch) = 1%nat ->
  hypotheses_of model batch pack_seq beam_size min_out_len max_out_len
    len_in_words = h :: hs ->
  (0 <= avg_log_prob h)%Q ->
  eval_bs_batch libm_log format_tokens batch model vocab pack_seq beam_size
    min_out_len max_out_len len_in_words true details tr
  = (Raise ValueError,
     tr ++ [beam_search_event batch pack_seq beam_size min_out_len
              max_out_len len_in_words]).
Proof.
  intros Hlen Hhyp Havg. rewrite eval_bs_batch_eq, Hlen, Hhyp. simpl.
  unfold after_beam_search.
  rewrite select_hypotheses_best, math_log_domain; [reflexivity|].
  exact (Qopp_le_compat 0 (avg_log_prob h) Havg).
Qed.

(** X8. The returned score is not a probability: it is negative exactly
    when the top hypothesis has an average log-probability above -1, zero
    exactly at -1, and positive exactly below -1.  The rounding of an
    accurate C library does not change the sign of a logarithm. *)
Theorem eval_bs_batch_score_sign
    (batch : Batch) (model : Seq2Seq) (vocab : Vocab) (pack_seq : bool)
    (beam_size min_out_len : nat) (max_out_len : option nat)
    (len_in_words best_only details : bool) (tr tr' : list event)
    (h : BeamHypothesis) (hs : list BeamHypothesis)
    (predicted : option string) (mnem : string) (pr : R) :
  hypotheses_of model batch pack_seq beam_size min_out_len max_out_len
    len_in_words = h :: hs ->
  eval_bs_batch libm_log format_tokens batch model vocab pack_seq beam_size
    min_out_len max_out_len len_in_words best_only details tr
  = (Ok (predicted, mnem, pr), tr') ->
  ((pr < 0)%R <-> (- (1) < avg_log_prob h)%Q) /\
  (pr = 0%R <-> (avg_log_prob h == - (1))%Q) /\
  ((0 < pr)%R <-> (avg_log_prob h < - (1))%Q).
Proof.
  intros Hhyp H. rewrite eval_bs_batch_eq in H.
  destruct (length (examples batch) =? 1)%nat; [|discriminate].
  injection H as H _. apply after_beam_search_inv in H.
  destruct H as (_ & _ & h' & hs' & dd & w0 & w1 & rest & example & exs
                 & Hhyp' & Havg & _ & _ & _ & _ & _ & ->).
  rewrite Hhyp in Hhyp'. injection Hhyp' as <- <-.
  set (a := avg_log_prob h) in *.
  assert (Hpos : (0 < Q2R (- a))%R).
  { rewrite <- RMicromega.Q2R_0. apply Qlt_Rlt.
    exact (Qopp_lt_compat a 0 Havg). }
  destruct (accurate_sign libm_log (- a) libm_log_accurate
              (Qopp_lt_compat a 0 Havg)) as (Aneg & Azero & Agt).
  destruct (log10_sign _ Hpos) as (Hneg & Hzero & Hgt).
  rewrite Aneg, Azero, Agt, Hneg, Hzero, Hgt. rewrite Q2R_opp.
  replace 1%R with (Q2R 1) by apply RMicromega.Q2R_1.
  repeat split.
  - intros Hl. apply Rlt_Qlt. rewrite Q2R_opp. lra.
  - intros Hl. apply Qlt_Rlt in Hl. rewrite Q2R_opp in Hl. lra.
  - intros He. apply eqR_Qeq. rewrite Q2R_opp. lra.
  - intros He. apply Qeq_eqR in He. rewrite Q2R_opp in He. lra.
  - intros Hl. apply Rlt_Qlt. rewrite Q2R_opp. lra.
  - intros Hl. apply Qlt_Rlt in Hl. rewrite Q2R_opp in Hl. lra.
Qed.

(** X10. Shape of what is returned: the label is two non-empty words free
    of whitespace joined by one space, so that splitting it gives the two
    words back, and the mnemonic is a single such word. *)
Theorem eval_bs_batch_label_shape
    (batch : Batch) (model : Seq2Seq) (vocab : Vocab) (pack_seq : bool)
    (beam_size min_out_len : nat) (max_out_len : option nat)
    (len_in_words best_only details : bool) (tr tr' : list event)
    (predicted : option string) (mnem : string) (pr : R) :
  eval_bs_batch libm_log format_tokens batch model vocab pack_seq beam_size
    min_out_len max_out_len len_in_words best_only details tr
  = (Ok (predicted, mnem, pr), tr') ->
  exists w0 w1,
    predicted = Some (w0 +:+ " " +:+ w1) /\
    py_split (w0 +:+ " " +:+ w1) = [w0; w1] /\
    py_split mnem = [mnem].
Proof.
  intros H. rewrite eval_bs_batch_eq in H.
  destruct (length (examples batch) =? 1)%nat; [|discriminate].
  injection H as H _. apply after_beam_search_inv in H.
  destruct H as (_ & _ & h & hs & dd & w0 & w1 & rest & example & exs
                 & _ & _ & _ & Hsplit & _ & Hlast & -> & _).
  pose proof (py_split_tokens (format_tokens dd)) as Htok.
  rewrite Hsplit in Htok.
  inversion Htok as [|? ? [Ht0 Hn0] Htok']; subst.
  inversion Htok' as [|? ? [Ht1 Hn1] _]; subst.
  exists w0, w1. split; [reflexivity|]. split.
  - change (" " +:+ w1)%string with (String " " w1).
    rewrite (py_split_word_space w0 w1 Ht0 Hn0).
    now rewrite (py_split_token w1 Ht1 Hn1).
  - pose proof (py_split_tokens (format_tokens (src example))) as Hsrc.
    apply last_Some_elem_of in Hlast.
    rewrite Forall_forall in Hsrc. destruct (Hsrc mnem Hlast) as [Ht Hn].
    exact (py_split_token mnem Ht Hn).
Qed.

(** X11. Under [best_only] only the top-ranked hypothesis counts: two
    models whose beam searches agree on the first hypothesis give the same
    outcome, result or exception, whatever else they return. *)
Theorem eval_bs_batch_top_hypothesis_only
    (batch : Batch) (model1 model2 : Seq2Seq) (vocab : Vocab)
    (pack_seq : bool) (beam_size min_out_len : nat)
    (max_out_len : option nat) (len_in_words details : bool)
    (tr : list event) (h : BeamHypothesis) (hs1 hs2 : list BeamHypothesis) :
  hypotheses_of model1 batch pack_seq beam_size min_out_len max_out_len
    len_in_words = h :: hs1 ->
  hypotheses_of model2 batch pack_seq beam_size min_out_len max_out_len
    len_in_words = h :: hs2 ->
  eval_bs_batch libm_log format_tokens batch model1 vocab pack_seq beam_size
    min_out_len max_out_len len_in_words true details tr
  = eval_bs_batch libm_log format_tokens batch model2 vocab pack_seq beam_size
      min_out_len max_out_len len_in_words true details tr.
Proof.
  intros H1 H2. rewrite !eval_bs_batch_eq, H1, H2.
  unfold after_beam_search. now rewrite !select_hypotheses_best.
Qed.

End BatchEvaluatorFurther.

(** * Further properties of [eval_bs] *)

Lemma record_all_app (rs1 rs2 : list (option string * string * R))
    (outs : gmap string string * gmap string R) :
  record_all (rs1 ++ rs2) outs = record_all rs2 (record_all rs1 outs).
Proof. unfold record_all. apply fold_left_app. Qed.

(** Both mappings are written together: they hold entries for the same
    mnemonics, and a pair of entries comes from one recorded result. *)
Lemma record_all_paired (P : string -> string -> R -> Prop)
    (rs : list (option string * string * R)) :
  forall outs : gmap string string * gmap string R,
    (forall m, match fst outs !! m, snd outs !! m with
               | Some l, Some p => P l m p
               | None, None => True
               | _, _ => False
               end) ->
    (forall l m p, (Some l, m, p) ∈ rs -> P l m p) ->
    forall m, match fst (record_all rs outs) !! m,
                    snd (record_all rs outs) !! m with
              | Some l, Some p => P l m p
              | None, None => True
              | _, _ => False
              end.
Proof.
  induction rs as [|[[predicted m'] p'] rs IH]; intros outs Houts Hrs;
    [exact Houts|].
  rewrite record_all_cons. apply IH.
  - intros m. cbn [fst snd]. unfold record_prediction.
    destruct predicted as [l|]; [|apply Houts].
    destruct (truthy (Some l)); [|apply Houts]. cbn [fst snd].
    destruct (decide (m' = m)) as [->|Hne].
    + rewrite !lookup_insert_eq. apply Hrs. apply elem_of_cons. auto.
    + rewrite !lookup_insert_ne by exact Hne. apply Houts.
  - intros l m p Hin. apply Hrs. apply elem_of_cons. auto.
Qed.

Lemma record_all_size (rs : list (option string * string * R)) :
  forall outs : gmap string string * gmap string R,
    (size (fst (record_all rs outs)) <= size (fst outs) + length rs)%nat.
Proof.
  induction rs as [|[[predicted m] p] rs IH]; intros outs; [simpl; lia|].
  rewrite record_all_cons. etransitivity; [apply IH|].
  cbn [fst snd length]. unfold record_prediction.
  destruct predicted as [l|]; [|lia].
  destruct (truthy (Some l)); [|lia]. cbn [fst].
  rewrite map_size_insert. destruct (fst outs !! m); simpl; lia.
Qed.

Section DatasetEvaluatorFurther.

Variable libm_log : Q -> Z -> R.
Variable format_tokens : list string -> string.
Variable get_data_path : string -> string.

(** The trace of the loop, whatever its outcome. *)
Lemma eval_bs_loop_trace (model : Seq2Seq) (vocab : Vocab) (params : Params)
    (result_file : option TarFile) (iters : list Z) :
  forall (test_gen : list Batch) (outs : gmap string string * gmap string R)
         (tr : list event),
    exists bs,
      snd (eval_bs_loop libm_log format_tokens iters test_gen result_file
             model vocab params outs tr) = tr ++ batch_events params bs /\
      bs `prefix_of` test_gen /\
      (length bs <= length iters)%nat.
Proof.
  induction iters as [|it iters IH]; intros test_gen outs tr.
  { exists []. simpl. rewrite app_nil_r.
    repeat split; [apply prefix_nil|lia]. }
  assert (Hstop : forall r,
            exists bs : list Batch,
              snd (@pair (result (gmap string string * gmap string R)) _ r tr)
              = tr ++ batch_events params bs /\
              bs `prefix_of` test_gen /\ (length bs <= S (length iters))%nat).
  { intros r. exists []. simpl. rewrite app_nil_r.
    repeat split; [apply prefix_nil|lia]. }
  cbn [eval_bs_loop]. unfold bind at 1. unfold lift at 1.
  destruct test_gen as [|b test_gen]; cbn [py_next]; [apply Hstop|].
  unfold bind at 1. unfold lift at 1.
  destruct result_file as [f|]; cbn [read_local]; [|apply Hstop].
  unfold bind at 1. rewrite eval_bs_batch_eq.
  destruct (length (examples b) =? 1)%nat; [|apply Hstop].
  destruct (after_beam_search _ _ _ _ _ _ _) as [[[predicted mnem] prob]|e].
  - destruct (IH test_gen (record_prediction predicted mnem prob outs)
                (tr ++ [beam_search_event b (pack_seq params)
                          (beam_size params) (min_out_len params)
                          (max_out_len params) (out_len_in_words params)]))
      as (bs & Htr & Hpre & Hlen).
    exists (b :: bs). rewrite Htr. cbn [batch_events map length].
    rewrite <- app_assoc. repeat split; [now apply prefix_cons|lia].
  - exists [b]. simpl. repeat split; [|lia].
    apply prefix_cons, prefix_nil.
Qed.

(** X12. Whatever the outcome of a pass, what it does to the outside is,
    in this order: open the results archive if and only if the guard of
    line 132 holds, put the model in inference mode once, and then make
    decoding calls only, one per batch for the first batches of the
    generator, at most [n_samples] of them.  Only when line 130 itself
    raises (the ratio or its product is not a finite number) does the pass
    end before all of this, having done nothing. *)
Theorem eval_bs_trace (test_set : Dataset) (vocab : Vocab) (model : Seq2Seq)
    (params : Params) (tr : list event) :
  match n_samples test_set params with
  | Ok n =>
      exists bs,
        snd (eval_bs libm_log format_tokens get_data_path test_set vocab
               model params tr)
        = tr ++ setup_events get_data_path params ++ batch_events params bs /\
        bs `prefix_of` generator test_set 1%nat vocab None (pointer params) /\
        (length bs <= Z.to_nat n)%nat
  | Raise e =>
      eval_bs libm_log format_tokens get_data_path test_set vocab model
        params tr = (Raise e, tr)
  end.
Proof.
  destruct (n_samples test_set params) as [n|e] eqn:Hn.
  2:{ now rewrite eval_bs_eq, Hn. }
  destruct (eval_bs_eq_setup libm_log format_tokens get_data_path test_set
              vocab model params n tr Hn) as (rf & _ & ->).
  destruct (eval_bs_loop_trace model vocab params rf (py_range 1 (n + 1))
              (generator test_set 1%nat vocab None (pointer params))
              (∅, ∅) (tr ++ setup_events get_data_path params))
    as (bs & Htr & Hpre & Hlen).
  exists bs. rewrite Htr, <- app_assoc. split; [reflexivity|].
  split; [exact Hpre|]. rewrite length_py_range in Hlen. lia.
Qed.

(** X13. The two mappings a pass returns go together: they have the same
    keys, at most [n_samples] of them, and the label and the score stored
    under a mnemonic are those of one and the same processed example with
    that mnemonic. *)
Theorem eval_bs_mappings_paired (test_set : Dataset) (vocab : Vocab)
    (model : Seq2Seq) (params : Params) (tr tr' : list event)
    (outs : gmap string string * gmap string R) :
  eval_bs libm_log format_tokens get_data_path test_set vocab model params tr
  = (Ok outs, tr') ->
  exists n : Z,
    n_samples test_set params = Ok n /\
    dom (fst outs) = dom (snd outs) /\
    (size (fst outs) <= Z.to_nat n)%nat /\
    forall (m l : string),
      fst outs !! m = Some l ->
      exists (p : R) (batch : Batch),
        snd outs !! m = Some p /\
        batch ∈ take (Z.to_nat n)
                  (generator test_set 1%nat vocab None (pointer params)) /\
        processed libm_log format_tokens model vocab params batch
          (Some l, m, p).
Proof.
  intros H.
  destruct (eval_bs_ok_n_samples _ _ _ _ _ _ _ _ _ _ H) as [n Hn].
  exists n. split; [exact Hn|].
  destruct (eval_bs_eq_setup libm_log format_tokens get_data_path test_set
              vocab model params n tr Hn) as (rf & _ & Heq).
  rewrite Heq in H. apply eval_bs_loop_ok in H.
  destruct H as (rs & Hrs & Hlen & -> & _).
  rewrite length_py_range in Hrs, Hlen.
  replace (n + 1 - 1) with n in * by lia.
  set (gen := take _ _) in *.
  pose proof (record_all_paired
                (fun l m p => exists batch,
                     batch ∈ gen /\
                     processed libm_log format_tokens model vocab params batch
                       (Some l, m, p))
                rs (∅, ∅)) as Hpaired.
  cbn beta in Hpaired.
  assert (Hinv : forall m,
             match fst (record_all rs (∅, ∅)) !! m,
                   snd (record_all rs (∅, ∅)) !! m with
             | Some l, Some p =>
                 exists batch,
                   batch ∈ gen /\
                   processed libm_log format_tokens model vocab params batch
                     (Some l, m, p)
             | None, None => True
             | _, _ => False
             end).
  { apply Hpaired.
    - intros m. cbn [fst snd]. now rewrite !lookup_empty.
    - intros l m p Hin. apply list_elem_of_lookup in Hin.
      destruct Hin as [j Hj].
      destruct (Forall2_lookup_r _ _ _ _ _ Hrs Hj) as (batch & Hb & Hproc).
      exists batch. split; [|exact Hproc].
      apply list_elem_of_lookup. eauto. }
  split; [|split].
  - apply set_eq. intros m. rewrite !elem_of_dom. specialize (Hinv m).
    destruct (fst (record_all rs (∅, ∅)) !! m),
             (snd (record_all rs (∅, ∅)) !! m);
      try contradiction; split; intros [? ?]; try discriminate; eauto.
  - pose proof (record_all_size rs (∅, ∅)) as Hsize.
    cbn [fst] in Hsize. rewrite map_size_empty in Hsize. lia.
  - intros m l Hm. specialize (Hinv m). rewrite Hm in Hinv.
    destruct (snd (record_all rs (∅, ∅)) !! m) as [p|]; [|contradiction].
    destruct Hinv as (batch & Hin & Hproc). eauto.
Qed.

(** X14. When the archive is opened and the generator's first [n_samples]
    batches each give a result, the pass returns those results recorded in
    order, having opened the archive, put the model in inference mode and
    made one decoding call per batch, in that order. *)
Theorem eval_bs_returns (test_set : Dataset) (vocab : Vocab)
    (model : Seq2Seq) (params : Params) (n : Z) (tr : list event)
    (bs test_gen : list Batch) (rs : list (option string * string * R)) :
  test_save_results params && truthy (model_path_prefix params) = true ->
  generator test_set 1%nat vocab None (pointer params) = bs ++ test_gen ->
  n_samples test_set params = Ok n ->
  length bs = Z.to_nat n ->
  Forall2 (processed libm_log format_tokens model vocab params) bs rs ->
  eval_bs libm_log format_tokens get_data_path test_set vocab model params tr
  = (Ok (record_all rs (∅, ∅)),
     tr ++ setup_events get_data_path params ++ batch_events params bs).
Proof.
  intros Hguard Hgen Hn Hlen Hrs.
  destruct (eval_bs_eq_setup libm_log format_tokens get_data_path test_set
              vocab model params n tr Hn) as (rf & Hrf & ->).
  destruct rf as [f|]; [|destruct Hrf as [Hrf _]; rewrite Hrf in Hguard;
                         [discriminate|reflexivity]].
  rewrite Hgen.
  rewrite <- (app_nil_r (py_range 1 (n + 1))).
  rewrite (eval_bs_loop_prefix libm_log format_tokens model vocab params f bs
             rs Hrs).
  - simpl. now rewrite <- app_assoc.
  - rewrite length_py_range. lia.
Qed.

(** X15. No example is skipped on failure: when the archive is opened, the
    first batches give results, and the call for the next batch, still
    within the [n_samples] to process, raises [e], the whole pass raises
    [e]; the results obtained so far are not returned. *)
Theorem eval_bs_aborts_on_failure (test_set : Dataset) (vocab : Vocab)
    (model : Seq2Seq) (params : Params) (n : Z) (tr : list event)
    (bs : list Batch) (batch : Batch) (test_gen : list Batch)
    (rs : list (option string * string * R)) (e : exn) :
  test_save_results params && truthy (model_path_prefix params) = true ->
  generator test_set 1%nat vocab None (pointer params)
  = bs ++ batch :: test_gen ->
  n_samples test_set params = Ok n ->
  Z.of_nat (length bs) < n ->
  Forall2 (processed libm_log format_tokens model vocab params) bs rs ->
  fails libm_log format_tokens model vocab params batch e ->
  fst (eval_bs libm_log format_tokens get_data_path test_set vocab model
  params tr) = Raise e.
Proof.
  intros Hguard Hgen Hn Hlen Hrs Hfail.
  destruct (eval_bs_eq_setup libm_log format_tokens get_data_path test_set
              vocab model params n tr Hn) as (rf & Hrf & ->).
  destruct rf as [f|]; [|destruct Hrf as [Hrf _]; rewrite Hrf in Hguard;
                         [discriminate|reflexivity]].
  rewrite Hgen.
  rewrite <- (take_drop (length bs) (py_range 1 (n + 1))).
  assert (Hrange : (length bs < length (py_range 1 (n + 1)))%nat)
    by (rewrite length_py_range; lia).
  rewrite (eval_bs_loop_prefix libm_log format_tokens model vocab params f bs
    rs Hrs) by (rewrite length_take; lia).
  destruct (drop (length bs) (py_range 1 (n + 1))) as [|it iters] eqn:Hdrop.
  { apply (f_equal (@length Z)) in Hdrop. rewrite length_drop in Hdrop.
    simpl in Hdrop. lia. }
  cbn [eval_bs_loop]. unfold bind at 1. unfold lift at 1. cbn [py_next].
  unfold bind at 1. unfold lift at 1. cbn [read_local].
  unfold bind at 1. change (is_not_None f) with true.
  specialize (Hfail (tr ++ setup_events get_data_path params ++ []
                        ++ batch_events params bs)).
  rewrite app_nil_l, app_assoc in Hfail.
  destruct (eval_bs_batch _ _ _ _ _ _ _ _ _ _ _ _ _) as [r tr1].
  simpl in Hfail. subst r. reflexivity.
Qed.

(** X16. A generator that runs out before [n_samples] batches were drawn
    ends the pass with [StopIteration]: line 137 calls [next] without a
    default and nothing catches the exception. *)
Theorem eval_bs_generator_exhausted (test_set : Dataset) (vocab : Vocab)
    (model : Seq2Seq) (params : Params) (n : Z) (tr : list event)
    (bs : list Batch) (rs : list (option string * string * R)) :
  test_save_results params && truthy (model_path_prefix params) = true ->
  generator test_set 1%nat vocab None (pointer params) = bs ->
  n_samples test_set params = Ok n ->
  Z.of_nat (length bs) < n ->
  Forall2 (processed libm_log format_tokens model vocab params) bs rs ->
  eval_bs libm_log format_tokens get_data_path test_set vocab model params tr
  = (Raise StopIteration,
     tr ++ setup_events get_data_path params ++ batch_events params bs).
Proof.
  intros Hguard Hgen Hn Hlen Hrs.
  destruct (eval_bs_eq_setup libm_log format_tokens get_data_path test_set
              vocab model params n tr Hn) as (rf & Hrf & ->).
  destruct rf as [f|]; [|destruct Hrf as [Hrf _]; rewrite Hrf in Hguard;
                         [discriminate|reflexivity]].
  rewrite Hgen. rewrite <- (app_nil_r bs) at 1.
  rewrite <- (take_drop (length bs) (py_range 1 (n + 1))).
  assert (Hrange : (length bs < length (py_range 1 (n + 1)))%nat)
    by (rewrite length_py_range; lia).
  rewrite (eval_bs_loop_prefix libm_log format_tokens model vocab params f bs
    rs Hrs) by (rewrite length_take; lia).
  destruct (drop (length bs) (py_range 1 (n + 1))) as [|it iters] eqn:Hdrop.
  { apply (f_equal (@length Z)) in Hdrop. rewrite length_drop in Hdrop.
    simpl in Hdrop. lia. }
  cbn [eval_bs_loop]. unfold bind at 1. unfold lift at 1. cbn [py_next].
  now rewrite <- app_assoc.
Qed.

End DatasetEvaluatorFurther.

(** X17. Line 130 on the usual ratios, for a dataset of fewer than [2^53]
    pairs: an [int] ratio [k] gives [k * len(pairs)], the float [1.0]
    gives [len(pairs)], a float ratio that is a number with a clear sign
    bit never gives a negative count, and a NaN ratio raises
    [ValueError]. *)
Theorem n_samples_bounds (test_set : Dataset) (params : Params) :
  (forall k : Z,
      test_sample_ratio params = PyInt k ->
      n_samples test_set params
      = Ok (k * Z.of_nat (length (pairs test_set)))) /\
  (test_sample_ratio params = PyFloat double_1 ->
   Z.of_nat (length (pairs test_set)) < 2 ^ 53 ->
   n_samples test_set params = Ok (Z.of_nat (length (pairs test_set)))) /\
  (forall n : Z,
      (exists m e,
          test_sample_ratio params = PyFloat (S754_finite false m e)) \/
      test_sample_ratio params = PyFloat (S754_zero false) ->
      n_samples test_set params = Ok n ->
      0 <= n) /\
  (test_sample_ratio params = PyFloat S754_nan ->
   Z.of_nat (length (pairs test_set)) < 2 ^ 53 ->
   n_samples test_set params = Raise ValueError).
Proof.
  split; [|split; [|split]].
  - intros k Hk. unfold n_samples. now rewrite Hk.
  - apply n_samples_ratio_1.
  - intros n. apply n_samples_nonneg.
  - intros Hnan Hsmall. unfold n_samples, py_mul_int. rewrite Hnan.
    destruct (Z.of_nat (length (pairs test_set))) as [|p|p] eqn:Hlen;
      [reflexivity| |lia].
    destruct (float_of_int_small p Hsmall) as (m & e & -> & _).
    reflexivity.
Qed.

Lemma n_samples_bounds_demo : n_samples demo_dataset demo_params = Ok 2.
Proof.
  destruct (n_samples_bounds demo_dataset demo_params) as (_ & Hall & _).
  apply Hall; reflexivity.
Defined.

(** ** The worked scenario, continued *)

Lemma demo_batch_processed :
  processed cpython_log join_tokens demo_model demo_vocab demo_params demo_batch
    (Some "GAMMA RAY"%string, "FT"%string,
     cpython_log (- avg_log_prob gamma_ray) 10).
Proof.
  intros tr. rewrite eval_bs_batch_eq.
  change (length (examples demo_batch) =? 1)%nat with true. cbv iota.
  change (hypotheses_of demo_model demo_batch _ _ _ _ _) with [gamma_ray].
  now rewrite (after_beam_search_ok cpython_log join_tokens demo_batch
    demo_vocab
                 demo_example gamma_ray [] ["GAMMA"; "RAY"; "<EOS>"]%string
                 "GAMMA"%string "RAY"%string ["<EOS>"%string] "FT"%string
                 eq_refl eq_refl eq_refl eq_refl eq_refl).
Qed.

Lemma demo_batch2_processed :
  processed cpython_log join_tokens demo_model demo_vocab demo_params
    demo_batch2 (Some "DEPTH GAMMA"%string, "FT"%string,
     cpython_log (- avg_log_prob depth_gamma) 10).
Proof.
  intros tr. rewrite eval_bs_batch_eq.
  change (length (examples demo_batch2) =? 1)%nat with true. cbv iota.
  change (hypotheses_of demo_model demo_batch2 _ _ _ _ _) with [depth_gamma].
  now rewrite (after_beam_search_ok cpython_log join_tokens demo_batch2
    demo_vocab
                 demo_example2 depth_gamma [] ["DEPTH"; "GAMMA"; "<EOS>"]%string
                 "DEPTH"%string "GAMMA"%string ["<EOS>"%string] "FT"%string
                 eq_refl eq_refl eq_refl eq_refl eq_refl).
Qed.

Lemma eval_bs_batch_demo_run :
  eval_bs_batch cpython_log join_tokens demo_batch (model_returning [gamma_ray])
    demo_vocab true 4 1 None true true true [] =
  (Ok (Some "GAMMA RAY"%string, "FT"%string,
       cpython_log (- avg_log_prob gamma_ray) 10),
   [beam_search_event demo_batch true 4 1 None true]).
Proof.
  rewrite eval_bs_batch_eq.
  change (length (examples demo_batch) =? 1)%nat with true. cbv iota.
  change (hypotheses_of (model_returning [gamma_ray]) demo_batch _ _ _ _ _)
    with [gamma_ray].
  now rewrite (after_beam_search_ok cpython_log join_tokens demo_batch
    demo_vocab
                 demo_example gamma_ray [] ["GAMMA"; "RAY"; "<EOS>"]%string
                 "GAMMA"%string "RAY"%string ["<EOS>"%string] "FT"%string
                 eq_refl eq_refl eq_refl eq_refl eq_refl).
Qed.

Lemma eval_bs_batch_demo_run2 :
  eval_bs_batch cpython_log join_tokens demo_batch2 (model_returning
    [depth_gamma])
    demo_vocab true 4 1 None true true true [] =
  (Ok (Some "DEPTH GAMMA"%string, "FT"%string,
       cpython_log (- avg_log_prob depth_gamma) 10),
   [beam_search_event demo_batch2 true 4 1 None true]).
Proof.
  rewrite eval_bs_batch_eq.
  change (length (examples demo_batch2) =? 1)%nat with true. cbv iota.
  change (hypotheses_of (model_returning [depth_gamma]) demo_batch2 _ _ _ _ _)
    with [depth_gamma].
  now rewrite (after_beam_search_ok cpython_log join_tokens demo_batch2
    demo_vocab
                 demo_example2 depth_gamma [] ["DEPTH"; "GAMMA"; "<EOS>"]%string
                 "DEPTH"%string "GAMMA"%string ["<EOS>"%string] "FT"%string
                 eq_refl eq_refl eq_refl eq_refl eq_refl).
Qed.

Lemma eval_bs_batch_no_hypothesis_demo :
  eval_bs_batch cpython_log join_tokens demo_batch (model_returning [])
    demo_vocab true 4
    1 None true true true [] =
  (Raise IndexError, [beam_search_event demo_batch true 4 1 None true]).
Proof.
  exact (eval_bs_batch_no_hypothesis cpython_log join_tokens demo_batch
           (model_returning []) demo_vocab true 4 1 None true true true []
           eq_refl eq_refl).
Defined.

Lemma eval_bs_batch_nonnegative_score_demo :
  eval_bs_batch cpython_log join_tokens demo_batch
    (model_returning [overconfident_gamma_ray]) demo_vocab true 4 1 None true
    true false [] =
  (Raise ValueError, [beam_search_event demo_batch true 4 1 None true]).
Proof.
  apply (eval_bs_batch_nonnegative_score cpython_log join_tokens demo_batch
           (model_returning [overconfident_gamma_ray]) demo_vocab true 4 1
           None true false [] overconfident_gamma_ray []).
  - reflexivity.
  - reflexivity.
  - discriminate.
Defined.

Lemma eval_bs_batch_score_sign_demo :
  (cpython_log (- avg_log_prob gamma_ray) 10%Z < 0)%R.
Proof.
  destruct (eval_bs_batch_score_sign cpython_log cpython_log_accurate
              join_tokens demo_batch
              (model_returning [gamma_ray]) demo_vocab true 4 1 None true
              true true [] _ gamma_ray [] _ _ _ eq_refl eval_bs_batch_demo_run)
    as [Hneg _].
  apply Hneg. reflexivity.
Defined.

Lemma eval_bs_batch_label_shape_demo :
  exists w0 w1,
    Some "GAMMA RAY"%string = Some (w0 +:+ " " +:+ w1) /\
    py_split (w0 +:+ " " +:+ w1) = [w0; w1] /\
    py_split "FT" = ["FT"%string].
Proof.
  exact (eval_bs_batch_label_shape cpython_log join_tokens demo_batch
           (model_returning [gamma_ray]) demo_vocab true 4 1 None true true
           true [] _ _ _ _ eval_bs_batch_demo_run).
Defined.

Lemma eval_bs_batch_top_hypothesis_only_demo :
  eval_bs_batch cpython_log join_tokens demo_batch (model_returning [gamma_ray])
    demo_vocab true 4 1 None true true true [] =
  eval_bs_batch cpython_log join_tokens demo_batch
    (model_returning [gamma_ray; depth_gamma; gamma_only]) demo_vocab true 4
    1 None true true true [].
Proof.
  exact (eval_bs_batch_top_hypothesis_only cpython_log join_tokens demo_batch
           (model_returning [gamma_ray])
           (model_returning [gamma_ray; depth_gamma; gamma_only]) demo_vocab
           true 4 1 None true true [] gamma_ray [] [depth_gamma; gamma_only]
           eq_refl eq_refl).
Defined.

Lemma eval_bs_returns_demo :
  eval_bs cpython_log join_tokens data_path demo_dataset demo_vocab demo_model
    demo_params [] =
  (Ok (record_all
         [(Some "GAMMA RAY"%string, "FT"%string,
           cpython_log (- avg_log_prob gamma_ray) 10);
          (Some "DEPTH GAMMA"%string, "FT"%string,
           cpython_log (- avg_log_prob depth_gamma) 10)] (∅, ∅)),
   [] ++ setup_events data_path demo_params
      ++ batch_events demo_params [demo_batch; demo_batch2]).
Proof.
  apply (eval_bs_returns cpython_log join_tokens data_path demo_dataset
           demo_vocab demo_model demo_params 2 [] [demo_batch; demo_batch2]
           []).
  - reflexivity.
  - reflexivity.
  - vm_compute. reflexivity.
  - reflexivity.
  - constructor; [exact demo_batch_processed|].
    constructor; [exact demo_batch2_processed|]. constructor.
Defined.

Lemma eval_bs_demo_run :
  eval_bs cpython_log join_tokens data_path demo_dataset demo_vocab demo_model
    demo_params [] =
  (Ok (record_all
         [(Some "GAMMA RAY"%string, "FT"%string,
           cpython_log (- avg_log_prob gamma_ray) 10);
          (Some "DEPTH GAMMA"%string, "FT"%string,
           cpython_log (- avg_log_prob depth_gamma) 10)] (∅, ∅)),
   setup_events data_path demo_params
     ++ batch_events demo_params [demo_batch; demo_batch2]).
Proof.
  assert (Hn : n_samples demo_dataset demo_params = Ok 2)
    by (vm_compute; reflexivity).
  destruct (eval_bs_eq_setup cpython_log join_tokens data_path demo_dataset
              demo_vocab demo_model demo_params 2 [] Hn) as (rf & Hrf & ->).
  destruct rf as [f|].
  2:{ destruct Hrf as [Hrf _]. discriminate Hrf. reflexivity. }
  change (generator demo_dataset 1%nat demo_vocab None (pointer demo_params))
    with ([demo_batch; demo_batch2] ++ []).
  change (py_range 1 (2 + 1)) with ([1; 2] ++ []).
  rewrite (eval_bs_loop_prefix cpython_log join_tokens demo_model demo_vocab
             demo_params f [demo_batch; demo_batch2]
             [(Some "GAMMA RAY"%string, "FT"%string,
               cpython_log (- avg_log_prob gamma_ray) 10);
              (Some "DEPTH GAMMA"%string, "FT"%string,
               cpython_log (- avg_log_prob depth_gamma) 10)]).
  - reflexivity.
  - constructor; [exact demo_batch_processed|].
    constructor; [exact demo_batch2_processed|]. constructor.
  - reflexivity.
Qed.

Lemma eval_bs_mappings_paired_demo :
  exists outs tr',
    eval_bs cpython_log join_tokens data_path demo_dataset demo_vocab demo_model
      demo_params [] = (Ok outs, tr') /\
    dom (fst outs) = dom (snd outs) /\
    (size (fst outs) <= 2)%nat.
Proof.
  do 2 eexists. split; [exact eval_bs_demo_run|].
  destruct (eval_bs_mappings_paired cpython_log join_tokens data_path
              demo_dataset demo_vocab demo_model demo_params [] _ _
              eval_bs_demo_run)
    as (n & Hn & Hdom & Hsize & _).
  assert (Hn2 : n = 2) by (vm_compute in Hn; congruence).
  subst n.
  split; [exact Hdom|exact Hsize].
Defined.

Lemma eval_bs_aborts_on_failure_demo :
  fst (eval_bs cpython_log join_tokens data_path demo_dataset_bad demo_vocab
         demo_model demo_params []) = Raise AssertionError.
Proof.
  apply (eval_bs_aborts_on_failure cpython_log join_tokens data_path
           demo_dataset_bad demo_vocab demo_model demo_params 2 [] [demo_batch]
           empty_batch []
           [(Some "GAMMA RAY"%string, "FT"%string,
             cpython_log (- avg_log_prob gamma_ray) 10)]).
  - reflexivity.
  - reflexivity.
  - vm_compute. reflexivity.
  - reflexivity.
  - constructor; [exact demo_batch_processed|]. constructor.
  - intros tr. rewrite eval_bs_batch_eq. reflexivity.
Defined.

Lemma eval_bs_generator_exhausted_demo :
  eval_bs cpython_log join_tokens data_path demo_dataset_short demo_vocab
    demo_model demo_params [] =
  (Raise StopIteration,
   [] ++ setup_events data_path demo_params
      ++ batch_events demo_params [demo_batch]).
Proof.
  apply (eval_bs_generator_exhausted cpython_log join_tokens data_path
           demo_dataset_short demo_vocab demo_model demo_params 2 []
           [demo_batch]
           [(Some "GAMMA RAY"%string, "FT"%string,
             cpython_log (- avg_log_prob gamma_ray) 10)]).
  - reflexivity.
  - reflexivity.
  - vm_compute. reflexivity.
  - reflexivity.
  - constructor; [exact demo_batch_processed|]. constructor.
Defined.
